(** * KeplerCoder/NeuralNetwork: the trainer and its data source

    A shallow embedding of [src/data.py] and [src/machine_learning.py].

    - Python [float] is IEEE-754 binary64, which is exactly Rocq's primitive
      [float]: every arithmetic expression of the source is written with the
      primitive operation of the same name, in the source's evaluation order.
    - Python [int] is [Z]; [//] and [%] are [Z.div] and [Z.modulo] (both
      floor towards minus infinity, as Python does).
    - A raised exception is a value of [res]; code that mutates a layer is
      a function from the layer to the outcome and the layer it leaves
      behind ([Py]), so what was mutated before a fault stays mutated. *)

From Stdlib Require Import Bool ZArith Lia Uint63.
From Stdlib Require Import Floats.PrimFloat Floats.SpecFloat Floats.FloatOps Floats.FloatAxioms.
From stdpp Require Import gmap strings list pretty.

Set Warnings "-inexact-float".

(** ** Exceptions and the two monads *)

Inductive exn : Set :=
  | ZeroDivisionError
  | IndexError
  | KeyError
  | ValueError
  | AttributeError.

Inductive res (A : Type) : Type :=
  | Ok (a : A)
  | Raise (e : exn).
Arguments Ok {A} a.
Arguments Raise {A} e.

#[global] Instance res_ret : MRet res := fun _ a => Ok a.
#[global] Instance res_bind : MBind res := fun _ _ f m =>
  match m with
  | Ok a => f a
  | Raise e => Raise e
  end.

(** A computation over a mutable object of type [S]. *)
Definition Py (S A : Type) : Type := S -> res A * S.

#[global] Instance Py_ret {S} : MRet (Py S) := fun _ a s => (Ok a, s).
#[global] Instance Py_bind {S} : MBind (Py S) := fun _ _ f m s =>
  match m s with
  | (Ok a, s') => f a s'
  | (Raise e, s') => (Raise e, s')
  end.

Definition get {S} : Py S S := fun s => (Ok s, s).
Definition lift {S A} (r : res A) : Py S A := fun s => (r, s).

(** [for x in xs: body x], left to right, abandoned at the first exception. *)
Fixpoint for_each {S A} (xs : list A) (body : A -> Py S unit) : Py S unit :=
  match xs with
  | [] => mret tt
  | x :: xs' => body x ≫= fun _ => for_each xs' body
  end.

(** ** Python built-ins *)

(** [range(n)] for an [int] n: empty when n <= 0. *)
Definition py_range (n : Z) : list Z := Z.of_nat <$> seq 0 (Z.to_nat n).

(** [l[i]]: a negative index counts from the end, anything outside
    [-len(l) .. len(l)-1] raises IndexError. *)
Definition py_pos {A} (l : list A) (i : Z) : res nat :=
  let n := Z.of_nat (length l) in
  if (0 <=? i)%Z then
    (if (i <? n)%Z then Ok (Z.to_nat i) else Raise IndexError)
  else
    (if (- n <=? i)%Z then Ok (Z.to_nat (n + i)) else Raise IndexError).

Definition py_index {A} (l : list A) (i : Z) : res A :=
  k ← py_pos l i;
  match l !! k with
  | Some x => Ok x
  | None => Raise IndexError
  end.

(** [l[i] = x] *)
Definition py_setitem {A} (l : list A) (i : Z) (x : A) : res (list A) :=
  k ← py_pos l i; Ok (<[k := x]> l).

(** [x / y] on floats: ZeroDivisionError for a zero divisor (of either
    sign), the IEEE quotient otherwise. *)
Definition py_div (x y : float) : res float :=
  if (y =? 0)%float then Raise ZeroDivisionError else Ok (x / y)%float.

(** [sum(xs)]: starts from the int 0 and adds from the left. *)
Definition py_sum (xs : list float) : float :=
  foldl PrimFloat.add 0%float xs.

(** int -> float, exact for |z| < 2^53 (every int this program converts is
    a list position or a small literal). *)
Definition float_of_int (z : Z) : float :=
  if (z <? 0)%Z then (- of_uint63 (Uint63.of_Z (- z)))%float
  else of_uint63 (Uint63.of_Z z).

(** The value of a decimal digit. *)
Definition digit_of_ascii (c : Ascii.ascii) : option Z :=
  let n := Z.of_N (Ascii.N_of_ascii c) in
  if ((48 <=? n) && (n <=? 57))%Z then Some (n - 48)%Z else None.

Fixpoint digits_value (acc : Z) (s : string) : option Z :=
  match s with
  | EmptyString => Some acc
  | String c s' =>
      match digit_of_ascii c with
      | Some d => digits_value (10 * acc + d) s'
      | None => None
      end
  end.

(** [float(s)], modelled on unsigned decimal integer literals of at most 15
    digits (all exact in binary64), which is what the keys of the dataset
    are.  Python accepts more (signs, fractions, exponents, surrounding
    blanks); those strings are not modelled: the function answers
    ValueError for them, as Python does for a string that is no number, and
    no statement below applies it to one. *)
Definition py_float (s : string) : res float :=
  match s with
  | EmptyString => Raise ValueError
  | _ =>
      if (15 <? String.length s)%nat then Raise ValueError
      else match digits_value 0 s with
           | Some z => Ok (float_of_int z)
           | None => Raise ValueError
           end
  end.

(** A text that [float] certainly refuses.  What [float] accepts is,
    between blanks, a decimal literal (digits, underscores, a sign, a point,
    an exponent marked e or E) or one of inf, infinity and nan in either
    case; so a text holding an ASCII letter other than a, e, f, i, n, t, y
    is refused with ValueError. *)
Definition foreign_letter (c : Ascii.ascii) : bool :=
  let n := Z.of_N (Ascii.N_of_ascii c) in
  let lower := if ((65 <=? n) && (n <=? 90))%Z then (n + 32)%Z else n in
  ((97 <=? lower) && (lower <=? 122))%Z
  && negb (existsb (Z.eqb lower) [97; 101; 102; 105; 110; 116; 121]%Z).

Fixpoint has_foreign_letter (s : string) : bool :=
  match s with
  | EmptyString => false
  | String c s' => foreign_letter c || has_foreign_letter s'
  end.

(** [str(n)] for an int. *)
Definition py_str (n : Z) : string := pretty n.

(** [a % b] on ints. *)
Definition py_mod (a b : Z) : res Z :=
  if (b =? 0)%Z then Raise ZeroDivisionError else Ok (a mod b)%Z.

(** [d.get(k)] on a dict kept as its items in insertion order. *)
Fixpoint dict_get {K V} `{EqDecision K} (k : K) (d : list (K * V)) : option V :=
  match d with
  | [] => None
  | (k', v) :: d' => if decide (k = k') then Some v else dict_get k d'
  end.

(** [dict(list(enumerate(xs, 1)))] *)
Definition enumerate1 {A} (xs : list A) : list (Z * A) :=
  imap (fun i x => (Z.of_nat (S i), x)) xs.

(** ** data.py *)

Module Data.

(** One encoded image. *)
Definition sample : Type := list float.

(** What the JSON document holds under a data name: an object from class
    name to the samples of the class (the shape [get_data_dict] reads), or
    an array of names (the shape the tests give [get_target_value_by_key]).
    An object is kept as its items in insertion order, its keys distinct.
    Iterating an object yields its keys, iterating an array its elements. *)
Inductive category : Type :=
  | CatDict (classes : list (string * list sample))
  | CatList (names : list string).

Definition category_iter (c : category) : list string :=
  match c with
  | CatDict classes => classes.*1
  | CatList names => names
  end.

Definition category_len (c : category) : Z :=
  Z.of_nat (length (category_iter c)).

(** The attributes of the class; an instance is taken not to shadow them. *)
Record t : Type := mk {
  data_name : string;
  data_class_name : Z;
  data_number : Z;
  dataset : gmap string category
}.

(** [self.dataset[self.data_name]] *)
Definition active_category (self : t) : res category :=
  match dataset self !! data_name self with
  | Some c => Ok c
  | None => Raise KeyError
  end.

Definition get_data_dict (self : t) : res (list (Z * sample)) :=
  c ← active_category self;
  match c with
  | CatDict classes =>
      Ok (enumerate1 (default [] (dict_get (py_str (data_class_name self)) classes)))
  | CatList _ => Raise AttributeError
  end.

Definition get_data_sample (self : t) : res sample :=
  d ← get_data_dict self;
  match dict_get (data_number self) d with
  | Some result => Ok result
  | None => Raise ValueError
  end.

(** The keys are the ints 1, 2, ..., so [key / 10] is the quotient of two
    ints, which for these is the float quotient of their conversions. *)
Definition get_normalized_target_value (self : t) (data_number : Z) : res float :=
  d ← get_data_dict self;
  let data_dict := d.*1 in
  key ← py_index data_dict (data_number - 1);
  py_div (float_of_int key) 10.

(** The dict comprehension [{key: float(key) / 10 for key in ...}]. *)
Fixpoint target_values_of (keys : list string) (acc : gmap string float)
  : res (gmap string float) :=
  match keys with
  | [] => Ok acc
  | key :: keys' =>
      f ← py_float key;
      v ← py_div f 10;
      target_values_of keys' (<[key := v]> acc)
  end.

Definition get_target_value_by_key (self : t) (value_by_key : string) : res float :=
  c ← active_category self;
  target_values ← target_values_of (category_iter c) ∅;
  Ok (default 0%float (target_values !! value_by_key)).

End Data.

(** ** The layer object

    The Layer classes live in layers.py, which is not part of the sources
    at hand.  The trainer touches three attributes, [weights], [bias] and
    [input_dataset], and one method, [get_layer_dataset()].  The method is
    kept as a field of the object: [forward] is whatever the layer's class
    computes from the three attributes (activation, switches and neuron
    count are fixed when the layer is built).  Rows of [weights] are
    separate list objects, as the layer builder creates them. *)

Record Layer : Type := mkLayer {
  weights : list (list float);
  bias : float;
  input_dataset : list float;
  forward : list (list float) -> float -> list float -> res (list float)
}.

Definition get_layer_dataset (layer : Layer) : res (list float) :=
  forward layer (weights layer) (bias layer) (input_dataset layer).

(** Attribute assignment: [layer.weights = w] and the like. *)
Definition with_weights (w : list (list float)) (layer : Layer) : Layer :=
  mkLayer w (bias layer) (input_dataset layer) (forward layer).
Definition with_bias (b : float) (layer : Layer) : Layer :=
  mkLayer (weights layer) b (input_dataset layer) (forward layer).
Definition with_input_dataset (x : list float) (layer : Layer) : Layer :=
  mkLayer (weights layer) (bias layer) x (forward layer).

Definition set_weights (w : list (list float)) : Py Layer unit :=
  fun layer => (Ok tt, with_weights w layer).
Definition set_bias (b : float) : Py Layer unit :=
  fun layer => (Ok tt, with_bias b layer).
Definition set_input_dataset (x : list float) : Py Layer unit :=
  fun layer => (Ok tt, with_input_dataset x layer).

(** ** machine_learning.py *)

Module MachineLearning.

Local Open Scope float_scope.

(** What [pickle.dump] is handed: [{'weights': weights, 'biases': biases}]. *)
Record persisted : Type := mkPersisted {
  p_weights : gmap string (list (list float));
  p_biases : gmap string float
}.

(** The file written is the value returned; a failing [open] or [dump] is
    caught and logged by the source and changes nothing else. *)
Definition _save_weights_and_biases
    (weights : gmap string (list (list float))) (biases : gmap string float)
  : persisted :=
  mkPersisted weights biases.

Definition _calculate_error (predicted target : float) : res float :=
  q ← py_div (predicted - target) target;
  Ok (q * 100).

Definition _get_lasso_regularization
    (regularization : float) (weights : list (list float)) (i j : Z) : res float :=
  row ← py_index weights i;
  w ← py_index row j;
  Ok (regularization * (if 0 <? w then 1 else -1)).

Definition _get_ridge_regularization
    (regularization : float) (weights : list (list float)) (i j : Z) : res float :=
  row ← py_index weights i;
  w ← py_index row j;
  Ok (regularization * w).

(** [weights[i][j] -= learning_rate * gradient * input_dataset[j]]: the
    row object is changed in place, so the matrix the caller holds is the
    old one with that entry replaced. *)
Definition _calculate_gradient_descent
    (input_dataset : list float) (learning_rate gradient : float)
    (weights : list (list float)) (i j : Z) : res (list (list float)) :=
  row ← py_index weights i;
  w ← py_index row j;
  x ← py_index input_dataset j;
  row' ← py_setitem row j (w - learning_rate * gradient * x);
  py_setitem weights i row'.

Definition _calculate_learning_decay
    (epoch epochs : Z) (learning_rate learning_decay : float) : res float :=
  m ← py_mod epoch (epochs / 4);
  Ok (if (m =? 0)%Z && negb (epoch =? 0)%Z
      then learning_rate * learning_decay
      else learning_rate).

(** The body of the inner loop of [update_weights], for one entry. *)
Definition update_entry
    (gradient : float) (lasso_regularization ridge_regularization : bool)
    (learning_rate regularization : float) (i j : Z) : Py Layer unit :=
  let regularization_term := 0 in
  regularization_term ←
    (if lasso_regularization then
       layer ← get;
       r ← lift (_get_lasso_regularization regularization (weights layer) i j);
       mret (regularization_term + r)
     else mret regularization_term);
  regularization_term ←
    (if ridge_regularization then
       layer ← get;
       r ← lift (_get_ridge_regularization regularization (weights layer) i j);
       mret (regularization_term + r)
     else mret regularization_term);
  layer ← get;
  w ← lift (_calculate_gradient_descent
              (input_dataset layer) learning_rate (gradient + regularization_term)
              (weights layer) i j);
  set_weights w;;
  if negb lasso_regularization && negb ridge_regularization then
    layer ← get;
    w ← lift (_calculate_gradient_descent
                (input_dataset layer) learning_rate gradient (weights layer) i j);
    set_weights w
  else mret tt.

Definition update_weights
    (gradient : float) (lasso_regularization ridge_regularization : bool)
    (learning_rate regularization : float) : Py Layer unit :=
  layer ← get;
  for_each (py_range (Z.of_nat (length (weights layer)))) (fun i =>
    layer ← get;
    row ← lift (py_index (weights layer) i);
    for_each (py_range (Z.of_nat (length row))) (fun j =>
      update_entry gradient lasso_regularization ridge_regularization
                   learning_rate regularization i j));;
  layer ← get;
  set_bias (bias layer - learning_rate * gradient).

(** The progress line is printed on every 100th epoch.  What is printed is
    left out; the two calls its f-string makes are kept, as either may
    raise. *)
Definition __get_train_visualisation
    (epoch : Z) (prediction target : float) : Py Layer unit :=
  if (epoch mod 100 =? 0)%Z then
    _ ← lift (_calculate_error prediction target);
    layer ← get;
    _ ← lift (get_layer_dataset layer);
    mret tt
  else mret tt.

Section train.
Variable self : Data.t.
Variables (data_number epochs : Z).
Variables (learning_decay error_tolerance regularization : float).
Variables (lasso_regularization ridge_regularization : bool).

(** One pass through the body of the loop of [train], up to the test of
    the tolerance: the decayed rate, the prediction and the target. *)
Definition train_epoch (epoch : Z) (learning_rate : float)
  : Py Layer (float * float * float) :=
  x ← lift (Data.get_data_sample self);
  set_input_dataset x;;
  layer ← get;
  outputs ← lift (get_layer_dataset layer);
  let prediction := py_sum outputs in
  target ← lift (Data.get_normalized_target_value self data_number);
  let gradient := prediction - target in
  update_weights gradient lasso_regularization ridge_regularization
                 learning_rate regularization;;
  __get_train_visualisation epoch prediction target;;
  learning_rate ← lift (_calculate_learning_decay
                          epoch epochs learning_rate learning_decay);
  mret (learning_rate, prediction, target).

(** [for epoch in ...] with the early return; falling out of the loop
    returns None. *)
Fixpoint train_loop (remaining : list Z) (learning_rate : float)
  : Py Layer (option (list (list float) * float)) :=
  match remaining with
  | [] => mret None
  | epoch :: remaining' =>
      '(learning_rate', prediction, target) ← train_epoch epoch learning_rate;
      if abs (prediction - target) <? error_tolerance then
        layer ← get;
        mret (Some (weights layer, bias layer))
      else train_loop remaining' learning_rate'
  end.

Definition train (learning_rate : float)
  : Py Layer (option (list (list float) * float)) :=
  train_loop (py_range epochs) learning_rate.
End train.

(** The three layers [train_layers_on_dataset] is given. *)
Record Net : Type := mkNet {
  hidden_layer_first : Layer;
  hidden_layer_second : Layer;
  output_outer_layer : Layer
}.

(** Running a computation on one of the three layers. *)
Definition on_first {A} (m : Py Layer A) : Py Net A := fun n =>
  let '(r, l) := m (hidden_layer_first n) in
  (r, mkNet l (hidden_layer_second n) (output_outer_layer n)).
Definition on_second {A} (m : Py Layer A) : Py Net A := fun n =>
  let '(r, l) := m (hidden_layer_second n) in
  (r, mkNet (hidden_layer_first n) l (output_outer_layer n)).
Definition on_outer {A} (m : Py Layer A) : Py Net A := fun n =>
  let '(r, l) := m (output_outer_layer n) in
  (r, mkNet (hidden_layer_first n) (hidden_layer_second n) l).

(** The per-sample summary line: printing is left out, the call to
    [get_layer_dataset] it makes is kept. *)
Definition __get_train_layers_on_dataset_visualisation : Py Net unit :=
  n ← get;
  _ ← lift (get_layer_dataset (output_outer_layer n));
  mret tt.

Section train_layers_on_dataset.
Variable self : Data.t.
Variable epochs : Z.
Variables (learning_rate learning_decay error_tolerance regularization : float).
Variables (lasso_regularization ridge_regularization : bool).

Definition train_layer (data_number : Z)
  : Py Layer (option (list (list float) * float)) :=
  train self data_number epochs learning_decay error_tolerance regularization
        lasso_regularization ridge_regularization learning_rate.

(** The body of the loop over the dataset; [data_number] is the local
    variable, which the body leaves incremented. *)
Definition dataset_step (data_number : Z) : Py Net Z :=
  x ← lift (Data.get_data_sample self);
  on_first (set_input_dataset x);;
  on_first (train_layer data_number);;
  n ← get;
  x ← lift (get_layer_dataset (hidden_layer_first n));
  on_second (set_input_dataset x);;
  on_second (train_layer data_number);;
  n ← get;
  x ← lift (get_layer_dataset (hidden_layer_second n));
  on_outer (set_input_dataset x);;
  on_outer (train_layer data_number);;
  __get_train_layers_on_dataset_visualisation;;
  mret (data_number + 1)%Z.

Fixpoint dataset_loop {A} (indices : list A) (data_number : Z) : Py Net Z :=
  match indices with
  | [] => mret data_number
  | _ :: indices' =>
      data_number' ← dataset_step data_number;
      dataset_loop indices' data_number'
  end.

(** The source returns None; the value here is what it hands to
    [_save_weights_and_biases], the last thing it does. *)
Definition train_layers_on_dataset (data_number : Z) : Py Net persisted :=
  let weights_by_name : gmap string (list (list float)) := ∅ in
  let biases_by_name : gmap string float := ∅ in
  c ← lift (Data.active_category self);
  dataset_loop (py_range (Data.category_len c)) data_number;;
  n ← get;
  let weights_by_name :=
    <["hidden_layer_first" := weights (hidden_layer_first n)]> weights_by_name in
  let weights_by_name :=
    <["hidden_layer_second" := weights (hidden_layer_second n)]> weights_by_name in
  let weights_by_name :=
    <["output_outer_layer" := weights (output_outer_layer n)]> weights_by_name in
  let biases_by_name :=
    <["hidden_layer_first" := bias (hidden_layer_first n)]> biases_by_name in
  let biases_by_name :=
    <["hidden_layer_second" := bias (hidden_layer_second n)]> biases_by_name in
  let biases_by_name :=
    <["output_outer_layer" := bias (output_outer_layer n)]> biases_by_name in
  mret (_save_weights_and_biases weights_by_name biases_by_name).
End train_layers_on_dataset.

End MachineLearning.

(** ** Closed forms used to state what the loops compute *)

Module Closed.
Local Open Scope float_scope.

(** [regularization_term] as [update_weights] accumulates it for an entry
    whose value is [w] when the entry is reached. *)
Definition regularization_term (lasso ridge : bool) (regularization w : float) : float :=
  let t := 0 in
  let t := if lasso then t + regularization * (if 0 <? w then 1 else -1) else t in
  if ridge then t + regularization * w else t.

(** One gradient-descent step on an entry [w] whose input value is [x]. *)
Definition step (learning_rate gradient x w : float) : float :=
  w - learning_rate * gradient * x.

(** The entry after one call of [update_weights]. *)
Definition entry_after
    (gradient : float) (lasso ridge : bool) (learning_rate regularization : float)
    (x w : float) : float :=
  let w1 := step learning_rate (gradient + regularization_term lasso ridge regularization w) x w in
  if negb lasso && negb ridge then step learning_rate gradient x w1 else w1.

(** What the inner loop stores in cell [j] of a row, given the inputs. *)
Definition cell_after
    (gradient : float) (lasso ridge : bool) (learning_rate regularization : float)
    (X : list float) (j : nat) (w : float) : float :=
  match X !! j with
  | Some x => entry_after gradient lasso ridge learning_rate regularization x w
  | None => w
  end.

Definition weights_after
    (gradient : float) (lasso ridge : bool) (learning_rate regularization : float)
    (input_dataset : list float) (weights : list (list float)) : list (list float) :=
  (fun row => zip_with (entry_after gradient lasso ridge learning_rate regularization)
                       input_dataset row) <$> weights.


(** The epochs of [remaining] run one after the other, as long as each ends
    without an exception and with [abs(prediction - target)] not below
    the tolerance: the rate and the layer the last of them leaves. *)
Fixpoint epochs_without_stop
    (self : Data.t) (data_number epochs : Z)
    (learning_decay error_tolerance regularization : float)
    (lasso ridge : bool)
    (remaining : list Z) (learning_rate : float) (layer : Layer)
  : option (float * Layer) :=
  match remaining with
  | [] => Some (learning_rate, layer)
  | epoch :: remaining' =>
      match MachineLearning.train_epoch self data_number epochs learning_decay
              regularization lasso ridge epoch learning_rate layer with
      | (Ok (learning_rate', prediction, target), layer') =>
          if abs (prediction - target) <? error_tolerance then None
          else epochs_without_stop self data_number epochs learning_decay
                 error_tolerance regularization lasso ridge
                 remaining' learning_rate' layer'
      | (Raise _, _) => None
      end
  end.

End Closed.

(** The frame of a layer: the shape of its matrix, its input vector and
    its method. *)
Definition same_frame (layer0 layer : Layer) : Prop :=
  length <$> weights layer = length <$> weights layer0 /\
  input_dataset layer = input_dataset layer0 /\
  forward layer = forward layer0.


(** ** Layers to run the trainer on *)

Module Layers.
Local Open Scope float_scope.

Definition get_linear (x : float) : float := x.

(** Modelled from the spec: [calculate_neuron_dataset] of layers.py, which
    is not among the sources.  "For each neuron n, computes
    sum(weights[n][k] * input_dataset[k] for k) + bias, applies the
    layer's activation, and zeroes the result entirely if switches[n] is
    disabled."  A neuron without an entry in [switches] counts as enabled;
    the products run over the positions both vectors have. *)
Definition calculate_neuron_dataset
    (activation : float -> float) (switches : list bool)
    (weights : list (list float)) (bias : float) (input_dataset : list float)
  : res (list float) :=
  Ok (imap (fun n row =>
              if default true (switches !! n)
              then activation (py_sum (zip_with PrimFloat.mul row input_dataset) + bias)
              else 0)
           weights).

End Layers.

(** ** Concrete runs *)

Module Scenario.
Local Open Scope float_scope.

(** The dataset of the repository's tests: an array of six names. *)
Definition cube_names : Data.t :=
  Data.mk "cube" 1 1
          {["cube" := Data.CatList ["1"; "2"; "3"; "4"; "5"; "6"]]}.

(** A dataset of the shape [get_data_dict] reads: one class, "1", with
    two samples. *)
Definition cube : Data.t :=
  Data.mk "cube" 1 1
          {["cube" := Data.CatDict [("1", [[1; 2]; [0.5; 0.5]])]]}.

Definition linear_layer (weights : list (list float)) : Layer :=
  mkLayer weights 0 [] (Layers.calculate_neuron_dataset Layers.get_linear []).

(** One neuron over two inputs. *)
Definition single : Layer := linear_layer [[0.5; 0.25]].

(** Two hidden layers of two neurons and an output neuron. *)
Definition net : MachineLearning.Net :=
  MachineLearning.mkNet
    (linear_layer [[0.5; 0]; [0; 0.5]])
    (linear_layer [[1; 0]; [0; 1]])
    (linear_layer [[0.5; 0.5]]).

End Scenario.

(** * Properties *)

(** ** The monads *)

Section monad_facts.
Context {S A B : Type}.

Lemma Py_bind_ok (m : Py S A) (f : A -> Py S B) s a s' :
  m s = (Ok a, s') -> (m ≫= f) s = f a s'.
Proof. unfold mbind, Py_bind. now intros ->. Qed.

(** The state a bind leaves is the state of its first part, or the state
    its continuation leaves from there. *)
Lemma Py_bind_state (P : S -> Prop) (m : Py S A) (f : A -> Py S B) s :
  P (m s).2 -> (forall a s', P s' -> P (f a s').2) -> P ((m ≫= f) s).2.
Proof.
  unfold mbind, Py_bind. intros Hm Hf.
  destruct (m s) as [[a | e] s']; simpl in *; auto.
Qed.
End monad_facts.

Lemma for_each_state {S A} (P : S -> Prop) (xs : list A) (body : A -> Py S unit) :
  (forall x s, P s -> P (body x s).2) ->
  forall s, P s -> P (for_each xs body s).2.
Proof.
  intros Hbody. induction xs as [| x xs IH]; intros s Hs; simpl; [exact Hs |].
  apply Py_bind_state; auto.
Qed.

(** ** Python indexing at a position in range *)

Lemma py_pos_of_nat {A} (l : list A) (k : nat) :
  k < length l -> py_pos l (Z.of_nat k) = Ok k.
Proof.
  intros Hk. unfold py_pos.
  destruct (Z.leb_spec 0 (Z.of_nat k)); [| lia].
  destruct (Z.ltb_spec (Z.of_nat k) (Z.of_nat (length l))); [| lia].
  now rewrite Nat2Z.id.
Qed.

Lemma py_index_of_nat {A} (l : list A) (k : nat) (x : A) :
  l !! k = Some x -> py_index l (Z.of_nat k) = Ok x.
Proof.
  intros Hx. unfold py_index.
  rewrite py_pos_of_nat by (eapply lookup_lt_Some; eauto).
  simpl. now rewrite Hx.
Qed.

Lemma py_setitem_of_nat {A} (l : list A) (k : nat) (x : A) :
  k < length l -> py_setitem l (Z.of_nat k) x = Ok (<[k := x]> l).
Proof. intros Hk. unfold py_setitem. now rewrite py_pos_of_nat. Qed.

Lemma py_setitem_length {A} (l l' : list A) (i : Z) (x : A) :
  py_setitem l i x = Ok l' -> length l' = length l.
Proof.
  unfold py_setitem. destruct (py_pos l i) as [k | e]; simpl; [| discriminate].
  intros [= <-]. apply length_insert.
Qed.

(** ** Binary64 facts: multiplying by the literals 1 and -1 *)

Section binary64.
Local Open Scope float_scope.

Lemma Prim2SF_one : Prim2SF 1 = S754_finite false 4503599627370496 (-52).
Proof. reflexivity. Qed.

Lemma Prim2SF_minus_one : Prim2SF (-1) = S754_finite true 4503599627370496 (-52).
Proof. reflexivity. Qed.

(** A mantissa scaled by 2^52 at an exponent lowered by 52 rounds back to
    itself. *)
Lemma binary_round_aux_scaled (s : bool) (m : positive) (e : Z) :
  bounded prec emax m e = true ->
  binary_round_aux prec emax s (Zpos (m * 4503599627370496)) (e + -52) loc_Exact
  = S754_finite s m e.
Proof.
  intros Hb. unfold bounded, canonical_mantissa in Hb.
  apply andb_prop in Hb as [Hc He]. apply Z.eqb_eq in Hc.
  rewrite Pos.mul_comm.
  change (4503599627370496 * m)%positive with (Pos.iter xO m 52).
  unfold binary_round_aux, shr_fexp.
  set (M := Pos.iter xO m 52).
  assert (HD : (Zdigits2 (Zpos M) + (e + -52) = Zpos (digits2_pos m) + e)%Z).
  { subst M. cbn [Pos.iter Zdigits2 digits2_pos]. rewrite !Pos2Z.inj_succ. lia. }
  rewrite HD, Hc.
  replace (e - (e + -52))%Z with 52%Z by lia.
  subst M.
  cbn [shr shr_record_of_loc Pos.iter SpecFloat.iter_pos shr_1 orb shr_m
       loc_of_shr_record round_nearest_even].
  replace (e + -52 + 52)%Z with e by lia.
  cbn [Zdigits2]. rewrite Hc, Z.sub_diag. cbn [shr shr_record_of_loc shr_m].
  now rewrite He.
Qed.

Lemma float_mul_1_r (r : float) : r * 1 = r.
Proof.
  apply Prim2SF_inj. rewrite mul_spec, Prim2SF_one.
  pose proof (Prim2SF_valid r) as Hv.
  destruct (Prim2SF r) as [s | s | | s m e]; cbn [SF64mul SFmul];
    rewrite ?xorb_false_r; try reflexivity.
  now apply binary_round_aux_scaled.
Qed.

Lemma float_mul_m1_r (r : float) : r * -1 = - r.
Proof.
  apply Prim2SF_inj. rewrite mul_spec, opp_spec, Prim2SF_minus_one.
  pose proof (Prim2SF_valid r) as Hv.
  destruct (Prim2SF r) as [s | s | | s m e]; cbn [SF64mul SFmul SFopp];
    rewrite ?xorb_true_r; try reflexivity.
  now apply binary_round_aux_scaled.
Qed.
End binary64.

(** ** Comparisons with zero *)

Section compare_with_zero.
Local Open Scope float_scope.

Lemma Prim2SF_zero : Prim2SF 0 = S754_zero false.
Proof. reflexivity. Qed.

Lemma float_neg_not_pos (w : float) : (w <? 0) = true -> (0 <? w) = false.
Proof.
  rewrite !FloatAxioms.ltb_spec, Prim2SF_zero.
  destruct (Prim2SF w) as [s | [] | | [] m e]; cbn; congruence.
Qed.

Lemma float_zero_not_pos (w : float) : (w =? 0) = true -> (0 <? w) = false.
Proof.
  rewrite FloatAxioms.ltb_spec, FloatAxioms.eqb_spec, Prim2SF_zero.
  destruct (Prim2SF w) as [s | [] | | [] m e]; cbn; congruence.
Qed.
End compare_with_zero.

(** ** The static helpers of the trainer *)

Section helpers.
Import MachineLearning.
Local Open Scope float_scope.

(** C7: for a target that is not zero, [_calculate_error] returns
    ((predicted - target) / target) * 100; it raises ZeroDivisionError
    exactly when the target compares equal to zero; and
    [_calculate_error(110, 100)] is 10.0. *)
Theorem calculate_error_percentage :
  (forall predicted target,
      (target =? 0) = false ->
      _calculate_error predicted target
      = Ok (((predicted - target) / target) * 100)) /\
  (forall predicted target,
      (exists e, _calculate_error predicted target = Raise e) <-> (target =? 0) = true) /\
  (forall predicted target,
      (target =? 0) = true ->
      _calculate_error predicted target = Raise ZeroDivisionError) /\
  _calculate_error 110 100 = Ok 10.
Proof.
  repeat split.
  - intros p t Ht. unfold _calculate_error, py_div. now rewrite Ht.
  - intros [e He]. unfold _calculate_error, py_div in He.
    destruct (target =? 0); [reflexivity | discriminate].
  - intros Ht. exists ZeroDivisionError.
    unfold _calculate_error, py_div. now rewrite Ht.
  - intros p t Ht. unfold _calculate_error, py_div. now rewrite Ht.
Qed.

(** The Lasso term is the parameter with the sign chosen by the test
    [weights[i][j] > 0]. *)
Lemma get_lasso_regularization_entry regularization (weights : list (list float)) i j row w :
  py_index weights i = Ok row ->
  py_index row j = Ok w ->
  _get_lasso_regularization regularization weights i j
  = Ok (if 0 <? w then regularization else - regularization).
Proof.
  intros Hrow Hw. unfold _get_lasso_regularization.
  rewrite Hrow. simpl. rewrite Hw. simpl.
  destruct (0 <? w); [now rewrite float_mul_1_r | now rewrite float_mul_m1_r].
Qed.

(** C3, as the code has it: the Lasso term at entry (i,j) is
    +regularization when [weights[i][j] > 0] and -regularization in every
    other case; in particular it is -regularization when the entry is
    negative and also when it is zero. *)
Theorem lasso_term_sign regularization (weights : list (list float)) i j row w :
  py_index weights i = Ok row ->
  py_index row j = Ok w ->
  ((0 <? w) = true ->
     _get_lasso_regularization regularization weights i j = Ok regularization) /\
  ((0 <? w) = false ->
     _get_lasso_regularization regularization weights i j = Ok (- regularization)) /\
  ((w <? 0) = true ->
     _get_lasso_regularization regularization weights i j = Ok (- regularization)) /\
  ((w =? 0) = true ->
     _get_lasso_regularization regularization weights i j = Ok (- regularization)).
Proof.
  intros Hrow Hw.
  rewrite (get_lasso_regularization_entry _ _ _ _ _ _ Hrow Hw).
  repeat split.
  - now intros ->.
  - now intros ->.
  - intros H. now rewrite (float_neg_not_pos _ H).
  - intros H. now rewrite (float_zero_not_pos _ H).
Qed.

(** C3, as the spec words it, fails at a zero weight: the term is
    -0.001, not +0.001. *)
Lemma lasso_term_at_zero_weight :
  _get_lasso_regularization 0.001 [[0]] 0 0 = Ok (-0.001) /\
  _get_lasso_regularization 0.001 [[0]] 0 0 <> Ok 0.001.
Proof. split; [reflexivity | vm_compute; discriminate]. Qed.

(** The quarter [epochs // 4] is zero exactly for 0 <= epochs < 4. *)
Lemma quarter_zero (epochs : Z) : (epochs / 4 = 0)%Z <-> (0 <= epochs < 4)%Z.
Proof.
  split; intros H.
  - pose proof (Z.div_mod epochs 4) as Hd.
    pose proof (Z.mod_pos_bound epochs 4). lia.
  - now apply Z.div_small.
Qed.

(** C2 (what the code does): when [epochs // 4] is zero the decay
    computation raises ZeroDivisionError, whatever the epoch, the rate
    and the decay factor; the rate is not returned. *)
Theorem learning_decay_faults_below_four_epochs
    (epoch epochs : Z) (learning_rate learning_decay : float) :
  (epochs / 4 = 0)%Z ->
  _calculate_learning_decay epoch epochs learning_rate learning_decay
  = Raise ZeroDivisionError.
Proof.
  intros Hq. unfold _calculate_learning_decay, py_mod. now rewrite Hq.
Qed.

(** With at least four epochs the rate is multiplied by the decay factor
    once when the epoch is a nonzero multiple of [epochs // 4], and
    returned unchanged otherwise. *)
Lemma learning_decay_at_multiples
    (epoch epochs : Z) (learning_rate learning_decay : float) :
  (4 <= epochs)%Z ->
  ((epochs / 4 | epoch)%Z -> epoch <> 0%Z ->
   _calculate_learning_decay epoch epochs learning_rate learning_decay
   = Ok (learning_rate * learning_decay)) /\
  (~ ((epochs / 4 | epoch)%Z /\ epoch <> 0%Z) ->
   _calculate_learning_decay epoch epochs learning_rate learning_decay
   = Ok learning_rate).
Proof.
  intros Hge.
  assert (Hq : (0 < epochs / 4)%Z) by (apply Z.div_str_pos; lia).
  unfold _calculate_learning_decay, py_mod.
  destruct (Z.eqb_spec (epochs / 4) 0) as [| _]; [lia |]. simpl.
  destruct (Z.eqb_spec (epoch mod (epochs / 4)) 0) as [Hm | Hm];
    destruct (Z.eqb_spec epoch 0) as [He | He]; simpl; split;
    try reflexivity; try tauto.
  - intros Hn. exfalso. apply Hn. split; [| exact He].
    apply Z.mod_divide; [lia | exact Hm].
  - intros Hd _. exfalso. apply Hm. apply Z.mod_divide; [lia | exact Hd].
Qed.

(** C5, as the code has it: with at least four epochs the rate is
    multiplied by the decay factor once when the epoch is a nonzero
    multiple of [epochs // 4] and returned unchanged otherwise; on the
    scenario (epoch 5 of 20, rate 0.1, decay 0.9) the result is the
    product 0.1 * 0.9 as binary64 computes it, which is
    0.09000000000000001 (0x1.70a3d70a3d70bp-4), one unit in the last
    place above the literal 0.09; a second call at epoch 6 returns that
    rate unchanged, and so does a call at epoch 6 with the rate 0.09. *)
Theorem learning_decay_quarterly :
  (forall epoch epochs learning_rate learning_decay,
      (4 <= epochs)%Z ->
      ((epochs / 4 | epoch)%Z -> epoch <> 0%Z ->
       _calculate_learning_decay epoch epochs learning_rate learning_decay
       = Ok (learning_rate * learning_decay)) /\
      (~ ((epochs / 4 | epoch)%Z /\ epoch <> 0%Z) ->
       _calculate_learning_decay epoch epochs learning_rate learning_decay
       = Ok learning_rate)) /\
  _calculate_learning_decay 5 20 0.1 0.9 = Ok (0.1 * 0.9) /\
  0.1 * 0.9 = 0x1.70a3d70a3d70bp-4 /\
  _calculate_learning_decay 6 20 0x1.70a3d70a3d70bp-4 0.9 = Ok 0x1.70a3d70a3d70bp-4 /\
  _calculate_learning_decay 6 20 0.09 0.9 = Ok 0.09.
Proof.
  split; [| repeat split; reflexivity].
  intros epoch epochs lr d Hge. now apply learning_decay_at_multiples.
Qed.

(** C5, as the spec words it, fails on its own scenario: the call does
    not return 0.09. *)
Lemma learning_decay_scenario_is_not_0_09 :
  _calculate_learning_decay 5 20 0.1 0.9 = Ok 0x1.70a3d70a3d70bp-4 /\
  _calculate_learning_decay 5 20 0.1 0.9 <> Ok 0.09.
Proof. split; [reflexivity | vm_compute; discriminate]. Qed.
End helpers.

Section helper_witnesses.
Import MachineLearning.
Local Open Scope float_scope.

(** [lasso_term_sign] on the matrix of the repository's tests, at the
    negative entry (0,1). *)
Lemma lasso_term_sign_witness :
  py_index [[0.5; -0.2]; [0.8; -0.4]] 0 = Ok [0.5; -0.2] /\
  py_index [0.5; -0.2] 1 = Ok (-0.2) /\
  _get_lasso_regularization 0.001 [[0.5; -0.2]; [0.8; -0.4]] 0 1 = Ok (-0.001).
Proof.
  split; [reflexivity |]. split; [reflexivity |].
  exact (proj1 (proj2 (proj2
           (lasso_term_sign 0.001 [[0.5; -0.2]; [0.8; -0.4]] 0 1 [0.5; -0.2] (-0.2)
                            eq_refl eq_refl)))
         eq_refl).
Defined.

(** [learning_decay_faults_below_four_epochs] on a run of three epochs,
    at its first epoch. *)
Lemma learning_decay_faults_witness :
  (3 / 4 = 0)%Z /\
  _calculate_learning_decay 0 3 0.1 0.9 = Raise ZeroDivisionError.
Proof.
  split; [reflexivity |].
  apply (learning_decay_faults_below_four_epochs 0 3 0.1 0.9). reflexivity.
Defined.

(** [calculate_error_percentage] on the values of the repository's test. *)
Lemma calculate_error_percentage_witness :
  (100 =? 0) = false /\
  _calculate_error 110 100 = Ok (((110 - 100) / 100) * 100).
Proof.
  split; [reflexivity |].
  apply (proj1 calculate_error_percentage 110 100). reflexivity.
Defined.

(** [learning_decay_quarterly] at the second quarter of twenty epochs. *)
Lemma learning_decay_quarterly_witness :
  (4 <= 20)%Z /\ (20 / 4 | 10)%Z /\ 10%Z <> 0%Z /\
  _calculate_learning_decay 10 20 0.5 0.5 = Ok (0.5 * 0.5).
Proof.
  assert (Hge : (4 <= 20)%Z) by lia.
  assert (Hdiv : (20 / 4 | 10)%Z) by (exists 2%Z; reflexivity).
  assert (Hne : 10%Z <> 0%Z) by discriminate.
  split; [exact Hge |]. split; [exact Hdiv |]. split; [exact Hne |].
  exact (proj1 (proj1 learning_decay_quarterly 10%Z 20%Z 0.5 0.5 Hge) Hdiv Hne).
Defined.
End helper_witnesses.

(** ** A loop that rewrites the cells of a list in place

    [for k in range(len(cells)): cells[k] = h(k, cells[k])], where the
    cells are reached through the state by [getl] and stored back by
    [setl], and [Inv] is what the body needs to run without a fault. *)

Section in_place.
Context {S A : Type}.
Variable Inv : S -> Prop.
Variable getl : S -> list A.
Variable setl : list A -> S -> S.
Variable h : nat -> A -> A.
Variable body : Z -> Py S unit.

Hypothesis setl_setl : forall s u v, setl v (setl u s) = setl v s.
Hypothesis setl_getl : forall s, setl (getl s) s = s.
Hypothesis body_cell : forall s k a,
  Inv s -> getl s !! k = Some a ->
  body (Z.of_nat k) s = (Ok tt, setl (<[k := h k a]> (getl s)) s) /\
  Inv (setl (<[k := h k a]> (getl s)) s) /\
  getl (setl (<[k := h k a]> (getl s)) s) = <[k := h k a]> (getl s).

Lemma for_each_in_place_from (cells : list A) (n k : nat) (s : S) :
  Inv s ->
  k + n = length cells ->
  getl s = take k (imap h cells) ++ drop k cells ->
  for_each (Z.of_nat <$> seq k n) body s = (Ok tt, setl (imap h cells) s).
Proof.
  revert k s. induction n as [| n IH]; intros k s HI Hlen Hget.
  - simpl. unfold mret, Py_ret. f_equal.
    rewrite take_ge, drop_ge, app_nil_r in Hget
      by (rewrite ?length_imap; lia).
    now rewrite <- Hget, setl_getl.
  - assert (Hk : k < length cells) by lia.
    destruct (lookup_lt_is_Some_2 cells k Hk) as [a Ha].
    assert (Hcur : getl s !! k = Some a).
    { rewrite Hget, lookup_app_r by (rewrite length_take, length_imap; lia).
      rewrite length_take, length_imap, lookup_drop.
      replace (k + (k - k `min` length cells)) with k by lia. exact Ha. }
    destruct (body_cell s k a HI Hcur) as (Hbody & HI' & Hget').
    cbn [seq fmap list_fmap for_each].
    rewrite (Py_bind_ok _ _ _ _ _ Hbody).
    rewrite (IH (Datatypes.S k) _ HI'); [now rewrite setl_setl | lia |].
    rewrite Hget', Hget.
    rewrite (take_S_r (imap h cells) k (h k a))
      by (rewrite list_lookup_imap, Ha; reflexivity).
    rewrite insert_app_r_alt by (rewrite length_take, length_imap; lia).
    rewrite length_take, length_imap.
    replace (k - k `min` length cells) with 0 by lia.
    rewrite (drop_S cells a k Ha). simpl. now rewrite <- app_assoc.
Qed.

Lemma for_each_in_place (s : S) :
  Inv s ->
  for_each (py_range (Z.of_nat (length (getl s)))) body s
  = (Ok tt, setl (imap h (getl s)) s).
Proof.
  intros HI. unfold py_range. rewrite Nat2Z.id.
  apply for_each_in_place_from; [exact HI | lia | reflexivity].
Qed.
End in_place.

(** ** [update_weights] *)

Lemma with_weights_weights (layer : Layer) : with_weights (weights layer) layer = layer.
Proof. now destruct layer. Qed.

Section update_weights_facts.
Import MachineLearning Closed.
Local Open Scope float_scope.
Variables (gradient : float) (lasso ridge : bool) (learning_rate regularization : float).

Lemma get_lasso_regularization_of_nat (W : list (list float)) (i j : nat) row w :
  W !! i = Some row -> row !! j = Some w ->
  _get_lasso_regularization regularization W (Z.of_nat i) (Z.of_nat j)
  = Ok (regularization * (if 0 <? w then 1 else -1)).
Proof.
  intros Hrow Hw. unfold _get_lasso_regularization.
  rewrite (py_index_of_nat _ _ _ Hrow). simpl.
  now rewrite (py_index_of_nat _ _ _ Hw).
Qed.

Lemma get_ridge_regularization_of_nat (W : list (list float)) (i j : nat) row w :
  W !! i = Some row -> row !! j = Some w ->
  _get_ridge_regularization regularization W (Z.of_nat i) (Z.of_nat j)
  = Ok (regularization * w).
Proof.
  intros Hrow Hw. unfold _get_ridge_regularization.
  rewrite (py_index_of_nat _ _ _ Hrow). simpl.
  now rewrite (py_index_of_nat _ _ _ Hw).
Qed.

Lemma calculate_gradient_descent_of_nat
    (X : list float) (g : float) (W : list (list float)) (i j : nat) row w x :
  W !! i = Some row -> row !! j = Some w -> X !! j = Some x ->
  _calculate_gradient_descent X learning_rate g W (Z.of_nat i) (Z.of_nat j)
  = Ok (<[i := <[j := step learning_rate g x w]> row]> W).
Proof.
  intros Hrow Hw Hx. unfold _calculate_gradient_descent.
  rewrite (py_index_of_nat _ _ _ Hrow). simpl.
  rewrite (py_index_of_nat _ _ _ Hw). simpl.
  rewrite (py_index_of_nat _ _ _ Hx). simpl.
  rewrite py_setitem_of_nat by (eapply lookup_lt_Some; eauto). simpl.
  rewrite py_setitem_of_nat by (eapply lookup_lt_Some; eauto).
  reflexivity.
Qed.

(** One pass of the inner body on an entry in range. *)
Lemma update_entry_cell (layer : Layer) (i j : nat) row w x :
  weights layer !! i = Some row -> row !! j = Some w ->
  input_dataset layer !! j = Some x ->
  update_entry gradient lasso ridge learning_rate regularization
               (Z.of_nat i) (Z.of_nat j) layer
  = (Ok tt,
     with_weights
       (<[i := <[j := entry_after gradient lasso ridge learning_rate regularization x w]> row]>
          (weights layer))
       layer).
Proof.
  intros Hrow Hw Hx.
  pose proof (lookup_lt_Some _ _ _ Hrow) as Hi.
  pose proof (lookup_lt_Some _ _ _ Hw) as Hj.
  unfold update_entry, entry_after, regularization_term.
  destruct lasso, ridge;
    unfold mbind, Py_bind, mret, Py_ret, get, lift, set_weights; cbn [negb andb];
    rewrite ?(get_lasso_regularization_of_nat _ _ _ _ _ Hrow Hw),
            ?(get_ridge_regularization_of_nat _ _ _ _ _ Hrow Hw),
            (calculate_gradient_descent_of_nat _ _ _ _ _ _ _ _ Hrow Hw Hx);
    try reflexivity.
  cbn [weights with_weights input_dataset].
  rewrite (calculate_gradient_descent_of_nat _ _ _ i j
             (<[j := step learning_rate (gradient + 0) x w]> row)
             (step learning_rate (gradient + 0) x w) x).
  - unfold with_weights. cbn. now rewrite !list_insert_insert_eq.
  - now apply list_lookup_insert_eq.
  - now apply list_lookup_insert_eq.
  - exact Hx.
Qed.

Lemma imap_cell_after (X row : list float) :
  length row <= length X ->
  imap (cell_after gradient lasso ridge learning_rate regularization X) row
  = zip_with (entry_after gradient lasso ridge learning_rate regularization) X row.
Proof.
  intros Hlen. apply list_eq. intros j.
  rewrite list_lookup_imap, lookup_zip_with. unfold cell_after.
  destruct (row !! j) as [w |] eqn:Hw; simpl.
  - destruct (lookup_lt_is_Some_2 X j) as [x Hx].
    { apply lookup_lt_Some in Hw. lia. }
    now rewrite Hx.
  - now destruct (X !! j).
Qed.

(** The inner loop over one row. *)
Lemma update_row (layer : Layer) (i : nat) row :
  weights layer !! i = Some row ->
  length row <= length (input_dataset layer) ->
  for_each (py_range (Z.of_nat (length row)))
           (fun j => update_entry gradient lasso ridge learning_rate regularization
                                  (Z.of_nat i) j)
           layer
  = (Ok tt,
     with_weights
       (<[i := zip_with (entry_after gradient lasso ridge learning_rate regularization)
                        (input_dataset layer) row]> (weights layer))
       layer).
Proof.
  intros Hrow Hlen.
  set (X := input_dataset layer).
  pose (getl := fun l : Layer => default [] (weights l !! i)).
  pose (setl := fun (v : list float) (l : Layer) => with_weights (<[i := v]> (weights l)) l).
  pose (Inv := fun l : Layer =>
                 i < length (weights l) /\ input_dataset l = X /\
                 length (getl l) <= length X).
  assert (Hgetl : getl layer = row) by (unfold getl; now rewrite Hrow).
  rewrite <- (imap_cell_after X row Hlen), <- Hgetl.
  apply (for_each_in_place Inv getl setl
           (cell_after gradient lasso ridge learning_rate regularization X)).
  - intros s u v. unfold setl, with_weights. cbn. now rewrite list_insert_insert_eq.
  - intros s. unfold setl, getl. destruct (weights s !! i) as [r |] eqn:Hr; simpl.
    + rewrite list_insert_id by exact Hr. apply with_weights_weights.
    + rewrite list_insert_ge by (now apply lookup_ge_None).
      apply with_weights_weights.
  - intros s k w (Hi & HX & Hle) Hw. unfold getl in Hw, Hle.
    destruct (weights s !! i) as [r |] eqn:Hr; simpl in Hw, Hle;
      [| now rewrite lookup_nil in Hw].
    destruct (lookup_lt_is_Some_2 X k) as [x Hx].
    { apply lookup_lt_Some in Hw. lia. }
    assert (Hc : cell_after gradient lasso ridge learning_rate regularization X k w
                 = entry_after gradient lasso ridge learning_rate regularization x w)
      by (unfold cell_after; now rewrite Hx).
    rewrite <- HX in Hx.
    split; [| split].
    + rewrite (update_entry_cell s i k r w x Hr Hw Hx).
      unfold setl, getl. now rewrite Hr, Hc.
    + unfold Inv, setl, getl, with_weights. cbn.
      rewrite length_insert, list_lookup_insert_eq by exact Hi. simpl.
      rewrite length_insert. rewrite Hr. simpl. auto.
    + unfold setl, getl, with_weights. cbn.
      now rewrite list_lookup_insert_eq by exact Hi.
  - unfold Inv. rewrite Hgetl. split; [eapply lookup_lt_Some; eauto | auto].
Qed.

(** The whole call, when no row is longer than the input vector: every
    entry is rewritten by [entry_after] with the input value of its own
    column, and the bias loses [learning_rate * gradient]. *)
Lemma update_weights_closed_form (layer : Layer) :
  Forall (fun row => length row <= length (input_dataset layer)) (weights layer) ->
  update_weights gradient lasso ridge learning_rate regularization layer
  = (Ok tt,
     mkLayer
       (weights_after gradient lasso ridge learning_rate regularization
                      (input_dataset layer) (weights layer))
       (bias layer - learning_rate * gradient)
       (input_dataset layer)
       (forward layer)).
Proof.
  intros Hrows.
  set (X := input_dataset layer).
  set (f := entry_after gradient lasso ridge learning_rate regularization).
  pose (Inv := fun l : Layer =>
                 input_dataset l = X /\
                 Forall (fun row => length row <= length X) (weights l)).
  unfold update_weights.
  unfold mbind at 1, Py_bind at 1, get at 1.
  rewrite (Py_bind_ok _ _ layer tt (with_weights (imap (const (zip_with f X)) (weights layer)) layer)).
  - unfold mbind, Py_bind, get, set_bias, with_bias, with_weights. cbn.
    unfold weights_after. now rewrite imap_const.
  - apply (for_each_in_place Inv weights with_weights (const (zip_with f X))).
    + reflexivity.
    + apply with_weights_weights.
    + intros s k row [HX Hall] Hrow. unfold const.
      assert (Hlen : length row <= length (input_dataset s)).
      { rewrite HX. eapply Forall_lookup_1 in Hall; eauto. }
      split; [| split].
      * unfold mbind, Py_bind, get, lift.
        rewrite (py_index_of_nat _ _ _ Hrow).
        rewrite (update_row s k row Hrow Hlen). now rewrite HX.
      * unfold Inv, with_weights. cbn. split; [exact HX |].
        apply Forall_insert; [exact Hall |].
        rewrite length_zip_with. lia.
      * reflexivity.
    + split; [reflexivity | exact Hrows].
Qed.
End update_weights_facts.

(** ** What [update_weights] never touches

    These hold for every call, also one that ends in IndexError half-way
    through the matrix. *)

Lemma py_index_inv {A} (l : list A) (i : Z) (x : A) :
  py_index l i = Ok x -> exists k, py_pos l i = Ok k /\ l !! k = Some x.
Proof.
  unfold py_index. destruct (py_pos l i) as [k | e]; simpl; [| discriminate].
  destruct (l !! k) as [y |] eqn:Hy; [| discriminate].
  intros [= <-]. eauto.
Qed.

Lemma calculate_gradient_descent_shape
    (X : list float) (lr g : float) (W W' : list (list float)) (i j : Z) :
  MachineLearning._calculate_gradient_descent X lr g W i j = Ok W' ->
  length <$> W' = length <$> W.
Proof.
  unfold MachineLearning._calculate_gradient_descent.
  destruct (py_index W i) as [row | e] eqn:Hrow; simpl; [| discriminate].
  destruct (py_index row j) as [w | e]; simpl; [| discriminate].
  destruct (py_index X j) as [x | e]; simpl; [| discriminate].
  destruct (py_setitem row j _) as [row' | e] eqn:Hset; simpl; [| discriminate].
  apply py_setitem_length in Hset.
  apply py_index_inv in Hrow as (k & Hk & Hlook).
  unfold py_setitem. rewrite Hk. simpl. intros [= <-].
  rewrite list_fmap_insert, Hset.
  apply list_insert_id. now rewrite list_lookup_fmap, Hlook.
Qed.

Lemma same_frame_refl (layer : Layer) : same_frame layer layer.
Proof. now repeat split. Qed.

Lemma same_frame_weights layer0 layer (W : list (list float)) :
  same_frame layer0 layer ->
  length <$> W = length <$> weights layer ->
  same_frame layer0 (with_weights W layer).
Proof. intros (Hs & HX & Hf) HW. repeat split; cbn; congruence. Qed.

Section frame.
Import MachineLearning.
Variables (gradient : float) (lasso ridge : bool) (learning_rate regularization : float).
Variable layer0 : Layer.

Lemma update_entry_frame (i j : Z) (layer : Layer) :
  same_frame layer0 layer ->
  same_frame layer0
    (update_entry gradient lasso ridge learning_rate regularization i j layer).2.
Proof.
  intros HF. unfold update_entry.
  unfold mbind, Py_bind, mret, Py_ret, get, lift, set_weights.
  destruct lasso, ridge; cbn [negb andb];
    repeat match goal with
      | |- context [match ?r with Ok _ => _ | Raise _ => _ end] =>
          let E := fresh "E" in destruct r eqn:E; cbn [fst snd weights input_dataset with_weights]
      end;
    cbn; try exact HF;
    repeat match goal with
      | H : _calculate_gradient_descent _ _ _ _ _ _ = Ok _ |- _ =>
          apply calculate_gradient_descent_shape in H
      end;
    try (apply same_frame_weights; [exact HF | assumption]).
  apply same_frame_weights; [apply same_frame_weights; [exact HF | assumption] |].
  assumption.
Qed.

Lemma update_weights_frame (layer : Layer) :
  same_frame layer0 layer ->
  same_frame layer0
    (update_weights gradient lasso ridge learning_rate regularization layer).2.
Proof.
  intros HF. unfold update_weights.
  unfold mbind at 1, Py_bind at 1, get at 1.
  apply Py_bind_state.
  - apply for_each_state; [| exact HF].
    intros i s Hs. unfold mbind, Py_bind, get, lift.
    destruct (py_index (weights s) i) as [row | e]; [| exact Hs].
    apply for_each_state; [| exact Hs].
    intros j s'. apply update_entry_frame.
  - intros [] s Hs. unfold mbind, Py_bind, get, set_bias. cbn.
    destruct Hs as (H1 & H2 & H3). now repeat split.
Qed.
End frame.

(** C10: a call of [update_weights] leaves the matrix with the same number
    of rows and every row with the same length, whatever the arguments and
    also when the call ends in an exception; the input vector and the
    layer's method are the same object as before, so only entries of the
    matrix and the bias can have changed. *)
Theorem update_weights_preserves_shape
    (gradient : float) (lasso ridge : bool) (learning_rate regularization : float)
    (layer : Layer) :
  let layer' :=
    (MachineLearning.update_weights gradient lasso ridge learning_rate regularization layer).2 in
  length (weights layer') = length (weights layer) /\
  length <$> weights layer' = length <$> weights layer /\
  input_dataset layer' = input_dataset layer /\
  forward layer' = forward layer.
Proof.
  intros layer'.
  destruct (update_weights_frame gradient lasso ridge learning_rate regularization
              layer layer (same_frame_refl layer)) as (Hs & HX & Hf).
  fold layer' in Hs, HX, Hf. repeat split; try assumption.
  apply (f_equal length) in Hs. now rewrite !length_fmap in Hs.
Qed.

(** ** Entries and bias after one call *)

Section entries.
Import MachineLearning Closed.
Local Open Scope float_scope.
Variables (gradient : float) (lasso ridge : bool) (learning_rate regularization : float).
Variable layer : Layer.
Hypothesis rows_fit :
  Forall (fun row => length row <= length (input_dataset layer)) (weights layer).

Let layer' : Layer :=
  (update_weights gradient lasso ridge learning_rate regularization layer).2.

Lemma update_weights_returns :
  update_weights gradient lasso ridge learning_rate regularization layer = (Ok tt, layer').
Proof.
  unfold layer'. now rewrite (update_weights_closed_form _ _ _ _ _ _ rows_fit).
Qed.

Lemma update_weights_entry (i j : nat) row w x :
  weights layer !! i = Some row -> row !! j = Some w ->
  input_dataset layer !! j = Some x ->
  exists row',
    weights layer' !! i = Some row' /\
    row' !! j = Some (entry_after gradient lasso ridge learning_rate regularization x w).
Proof.
  intros Hrow Hw Hx. unfold layer'.
  rewrite (update_weights_closed_form _ _ _ _ _ _ rows_fit). cbn.
  unfold weights_after. rewrite list_lookup_fmap, Hrow. cbn.
  eexists; split; [reflexivity |].
  now rewrite lookup_zip_with, Hx, Hw.
Qed.

Lemma update_weights_bias :
  bias layer' = bias layer - learning_rate * gradient.
Proof.
  unfold layer'. now rewrite (update_weights_closed_form _ _ _ _ _ _ rows_fit).
Qed.
End entries.

Section entries_by_flags.
Import MachineLearning Closed.
Local Open Scope float_scope.
Variables (gradient : float) (learning_rate regularization : float).
Variable layer : Layer.
Hypothesis rows_fit :
  Forall (fun row => length row <= length (input_dataset layer)) (weights layer).

(** With at least one of the two flags set, entry (i,j) becomes
    [w - learning_rate * (gradient + regularization_term) * input_dataset[j]]
    and the bias [bias - learning_rate * gradient]. *)
Lemma update_weights_regularized_entry (lasso ridge : bool) (i j : nat) row w x :
  lasso || ridge = true ->
  weights layer !! i = Some row -> row !! j = Some w ->
  input_dataset layer !! j = Some x ->
  let layer' :=
    (update_weights gradient lasso ridge learning_rate regularization layer).2 in
  (exists row',
      weights layer' !! i = Some row' /\
      row' !! j
      = Some (w - learning_rate
                  * (gradient + regularization_term lasso ridge regularization w) * x)) /\
  bias layer' = bias layer - learning_rate * gradient.
Proof.
  intros Hflag Hrow Hw Hx layer'. split.
  - destruct (update_weights_entry gradient lasso ridge learning_rate regularization
                layer rows_fit i j row w x Hrow Hw Hx) as (row' & H1 & H2).
    exists row'. split; [exact H1 |]. rewrite H2. unfold entry_after, step.
    destruct lasso, ridge; try discriminate; reflexivity.
  - now apply update_weights_bias.
Qed.

(** C1 (what the code does): with both flags off, one call of
    [update_weights] takes [learning_rate * gradient * input_dataset[j]]
    from entry (i,j) twice: once through the call every entry gets (with
    the term 0.0 added to the gradient), and once more through the call
    guarded by [not lasso_regularization and not ridge_regularization]. *)
Theorem update_weights_unregularized_subtracts_twice (i j : nat) row w x :
  weights layer !! i = Some row -> row !! j = Some w ->
  input_dataset layer !! j = Some x ->
  let layer' :=
    (update_weights gradient false false learning_rate regularization layer).2 in
  exists row',
    weights layer' !! i = Some row' /\
    row' !! j
    = Some (w - learning_rate * (gradient + 0) * x - learning_rate * gradient * x).
Proof.
  intros Hrow Hw Hx layer'.
  exact (update_weights_entry gradient false false learning_rate regularization
           layer rows_fit i j row w x Hrow Hw Hx).
Qed.
End entries_by_flags.

Section failing_updates.
Import MachineLearning Closed.
Local Open Scope float_scope.
Variable fwd : list (list float) -> float -> list float -> res (list float).

(** On the one-row layer [[1.0, 2.0]] with input [1.0, 1.0], gradient 0.5
    and learning rate 0.5, with both flags off, one step would leave
    [[0.75, 1.75]]; the call leaves [[0.5, 1.5]]. *)
Example update_weights_unregularized_run :
  let layer := mkLayer [[1; 2]] 0 [1; 1] fwd in
  update_weights 0.5 false false 0.5 0.001 layer
  = (Ok tt, mkLayer [[0.5; 1.5]] (-0.25) [1; 1] fwd) /\
  [[step 0.5 0.5 1 1; step 0.5 0.5 1 2]] = [[0.75; 1.75]] /\
  [[step 0.5 0.5 1 (step 0.5 0.5 1 1); step 0.5 0.5 1 (step 0.5 0.5 1 2)]] = [[0.5; 1.5]].
Proof. repeat split. Qed.

(** C6 (what the code does): on the layer [[1.0, 2.0], [3.0, 4.0]] with
    input [1.0, 2.0], gradient 0.5, learning rate 0.5 and both flags off,
    the regularization term is 0.0 and entry (1,1) would become
    4.0 - 0.5 * (0.5 + 0.0) * 2.0 = 3.5; the call leaves 3.0 there. The bias
    is [bias - learning_rate * gradient] as claimed. *)
Theorem update_weights_unregularized_entry_value :
  let layer := mkLayer [[1; 2]; [3; 4]] 1 [1; 2] fwd in
  let layer' := (update_weights 0.5 false false 0.5 0.001 layer).2 in
  regularization_term false false 0.001 4 = 0 /\
  4 - 0.5 * (0.5 + regularization_term false false 0.001 4) * 2 = 3.5 /\
  weights layer' = [[0.5; 1]; [2.5; 3]] /\
  bias layer' = 1 - 0.5 * 0.5.
Proof. repeat split. Qed.
End failing_updates.

Section update_witnesses.
Import MachineLearning Closed Scenario.
Local Open Scope float_scope.

(** [update_weights_unregularized_subtracts_twice] on the one-row layer
    [[1.0, 2.0]] with input [1.0, 1.0], gradient 0.5 and learning rate 0.5,
    at entry (0,1): the call leaves 1.5 there, one step would leave
    1.75. *)
Lemma update_weights_unregularized_witness :
  let layer := with_input_dataset [1; 1] (linear_layer [[1; 2]]) in
  let layer' := (update_weights 0.5 false false 0.5 0.001 layer).2 in
  Forall (fun row => length row <= length (input_dataset layer)) (weights layer) /\
  weights layer !! 0%nat = Some [1; 2] /\
  [1; 2] !! 1%nat = Some 2 /\
  input_dataset layer !! 1%nat = Some 1 /\
  (exists row', weights layer' !! 0%nat = Some row' /\
                row' !! 1%nat = Some (2 - 0.5 * (0.5 + 0) * 1 - 0.5 * 0.5 * 1)) /\
  2 - 0.5 * (0.5 + 0) * 1 - 0.5 * 0.5 * 1 = 1.5 /\
  step 0.5 0.5 1 2 = 1.75.
Proof.
  intros layer layer'.
  assert (Hfit : Forall (fun row => length row <= length (input_dataset layer))
                        (weights layer)).
  { repeat constructor. }
  split; [exact Hfit |].
  split; [reflexivity |]. split; [reflexivity |]. split; [reflexivity |].
  split; [| split; reflexivity].
  exact (update_weights_unregularized_subtracts_twice
           0.5 0.5 0.001 layer Hfit 0%nat 1%nat [1; 2] 2 1 eq_refl eq_refl eq_refl).
Defined.
End update_witnesses.

(** ** [train] *)

Lemma py_range_split (k n : Z) :
  (0 <= k < n)%Z -> exists rest, py_range n = py_range k ++ k :: rest.
Proof.
  intros Hk. unfold py_range.
  replace (Z.to_nat n) with (Z.to_nat k + Datatypes.S (Z.to_nat n - Datatypes.S (Z.to_nat k)))
    by lia.
  rewrite seq_app, fmap_app. change (0 + Z.to_nat k) with (Z.to_nat k).
  cbn [seq]. rewrite fmap_cons, Z2Nat.id by lia.
  eexists. reflexivity.
Qed.

Section train_facts.
Import MachineLearning Closed.
Local Open Scope float_scope.
Variable self : Data.t.
Variables (data_number epochs : Z).
Variables (learning_decay error_tolerance regularization : float).
Variables (lasso ridge : bool).

(** Epochs that neither stop nor fault are simply run through. *)
Lemma train_loop_skip (before rest : list Z) learning_rate layer rate_k layer_k :
  epochs_without_stop self data_number epochs learning_decay error_tolerance
    regularization lasso ridge before learning_rate layer = Some (rate_k, layer_k) ->
  train_loop self data_number epochs learning_decay error_tolerance regularization
    lasso ridge (before ++ rest) learning_rate layer
  = train_loop self data_number epochs learning_decay error_tolerance regularization
      lasso ridge rest rate_k layer_k.
Proof.
  revert learning_rate layer.
  induction before as [| epoch before IH]; intros lr layer Hrun; simpl in *.
  - now injection Hrun as -> ->.
  - unfold mbind, Py_bind.
    destruct (train_epoch _ _ _ _ _ _ _ epoch lr layer) as [[[[lr' p] t] | e] layer'];
      [| discriminate].
    destruct (abs (p - t) <? error_tolerance); [discriminate |].
    now apply IH.
Qed.

(** The early return, for the runs in which every epoch gets through its
    learning-rate decay (which takes four or more epochs, see the section on
    fewer than four epochs below): if the epochs before
    epoch k ended without exception and with [abs(prediction - target)]
    not below the tolerance, and epoch k (k < epochs) ends with it below the
    tolerance, then [train] returns the pair (layer.weights, layer.bias) of
    the layer as epoch k leaves it; if all the epochs ran that way without
    ever meeting the tolerance, [train] returns None. *)
Lemma train_returns_at_first_tolerance_epoch (learning_rate : float) (layer : Layer) :
  (forall k rate_k layer_k rate' prediction target layer',
      (0 <= k < epochs)%Z ->
      epochs_without_stop self data_number epochs learning_decay error_tolerance
        regularization lasso ridge (py_range k) learning_rate layer
      = Some (rate_k, layer_k) ->
      train_epoch self data_number epochs learning_decay regularization lasso ridge
        k rate_k layer_k
      = (Ok (rate', prediction, target), layer') ->
      (abs (prediction - target) <? error_tolerance) = true ->
      train self data_number epochs learning_decay error_tolerance regularization
        lasso ridge learning_rate layer
      = (Ok (Some (weights layer', bias layer')), layer')) /\
  (forall rate_n layer_n,
      epochs_without_stop self data_number epochs learning_decay error_tolerance
        regularization lasso ridge (py_range epochs) learning_rate layer
      = Some (rate_n, layer_n) ->
      train self data_number epochs learning_decay error_tolerance regularization
        lasso ridge learning_rate layer
      = (Ok None, layer_n)).
Proof.
  split.
  - intros k rate_k layer_k rate' p t layer' Hk Hrun Hepoch Htol.
    destruct (py_range_split k epochs Hk) as [rest Hsplit].
    unfold train. rewrite Hsplit, (train_loop_skip _ _ _ _ _ _ Hrun).
    cbn [train_loop]. unfold mbind, Py_bind. rewrite Hepoch, Htol.
    reflexivity.
  - intros rate_n layer_n Hrun.
    unfold train. rewrite <- (app_nil_r (py_range epochs)).
    rewrite (train_loop_skip _ _ _ _ _ _ Hrun). reflexivity.
Qed.
End train_facts.

Section train_witness.
Import MachineLearning Closed Scenario.
Local Open Scope float_scope.

(** [train_returns_at_first_tolerance_epoch] on the one-neuron layer: with
    tolerance 0.5 the run of eight epochs returns in its second epoch
    (k = 1); with tolerance 0 a run of four epochs returns None. *)
Lemma train_returns_witness :
  train cube 1 8 0.9 0.5 0 false true 0.1 single
  = (Ok (Some ([[0.374; -0.0020000000000000018]], -0.126)),
     mkLayer [[0.374; -0.0020000000000000018]] (-0.126) [1; 2] (forward single)) /\
  (train cube 1 4 0.9 0 0 false true 0.1 single).1 = Ok None.
Proof.
  split.
  - eapply (proj1 (train_returns_at_first_tolerance_epoch
                     cube 1 8 0.9 0.5 0 false true 0.1 single)
                  1%Z _ _ _ _ _
                  (mkLayer [[0.374; -0.0020000000000000018]] (-0.126) [1; 2]
                           (forward single))).
    + lia.
    + vm_compute. reflexivity.
    + vm_compute. reflexivity.
    + vm_compute. reflexivity.
  - destruct (epochs_without_stop cube 1 4 0.9 0 0 false true (py_range 4) 0.1 single)
      as [[rate_n layer_n] |] eqn:Hrun; [| vm_compute in Hrun; discriminate].
    now rewrite (proj2 (train_returns_at_first_tolerance_epoch
                          cube 1 4 0.9 0 0 false true 0.1 single) _ _ Hrun).
Defined.
End train_witness.

(** ** What [train] does to the layer's input

    Every epoch starts with [layer.input_dataset = self.get_data_sample()],
    so whatever the caller stored there is gone after the first epoch. *)

Section train_input.
Import MachineLearning.
Local Open Scope float_scope.
Variable self : Data.t.
Variables (data_number epochs : Z).
Variables (learning_decay error_tolerance regularization : float).
Variables (lasso ridge : bool).
Variable x : Data.sample.
Hypothesis sample_is_x : Data.get_data_sample self = Ok x.

Lemma get_train_visualisation_state epoch prediction target (layer : Layer) :
  (__get_train_visualisation epoch prediction target layer).2 = layer.
Proof.
  unfold __get_train_visualisation, mbind, Py_bind, lift, get, mret, Py_ret.
  destruct (epoch mod 100 =? 0)%Z; [| reflexivity].
  destruct (_calculate_error prediction target); [| reflexivity].
  now destruct (get_layer_dataset layer).
Qed.

Lemma train_epoch_input epoch learning_rate (layer : Layer) :
  input_dataset
    (train_epoch self data_number epochs learning_decay regularization lasso ridge
       epoch learning_rate layer).2 = x.
Proof.
  unfold train_epoch. unfold mbind at 1, Py_bind at 1, lift at 1.
  rewrite sample_is_x.
  unfold mbind at 1, Py_bind at 1, set_input_dataset at 1.
  unfold mbind at 1, Py_bind at 1, get at 1.
  set (layer1 := with_input_dataset x layer).
  unfold mbind at 1, Py_bind at 1, lift at 1.
  destruct (get_layer_dataset layer1) as [outputs | e]; [| reflexivity].
  unfold mbind at 1, Py_bind at 1, lift at 1.
  destruct (Data.get_normalized_target_value self data_number) as [target | e];
    [| reflexivity].
  unfold mbind at 1, Py_bind at 1.
  pose proof (update_weights_frame (py_sum outputs - target) lasso ridge learning_rate
                regularization layer1 layer1 (same_frame_refl layer1)) as (_ & HX & _).
  destruct (update_weights _ _ _ _ _ layer1) as [[[] | e] layer2]; [| exact HX].
  unfold mbind at 1, Py_bind at 1.
  pose proof (get_train_visualisation_state epoch (py_sum outputs) target layer2) as Hvis.
  destruct (__get_train_visualisation epoch (py_sum outputs) target layer2)
    as [[[] | e] layer3]; simpl in Hvis; subst layer3; [| exact HX].
  unfold mbind, Py_bind, lift, mret, Py_ret.
  now destruct (_calculate_learning_decay epoch epochs learning_rate learning_decay).
Qed.

Lemma train_loop_input (remaining : list Z) learning_rate (layer : Layer) r layer' :
  train_loop self data_number epochs learning_decay error_tolerance regularization
    lasso ridge remaining learning_rate layer = (Ok r, layer') ->
  (remaining = [] /\ layer' = layer) \/ input_dataset layer' = x.
Proof.
  revert learning_rate layer.
  induction remaining as [| epoch remaining IH]; intros lr layer Hrun.
  - left. cbn in Hrun. now injection Hrun as _ ->.
  - right. cbn [train_loop] in Hrun. unfold mbind at 1, Py_bind at 1 in Hrun.
    pose proof (train_epoch_input epoch lr layer) as Hin.
    destruct (train_epoch _ _ _ _ _ _ _ epoch lr layer) as [[[[lr' p] t] | e] layer1];
      [| discriminate].
    simpl in Hin.
    destruct (abs (p - t) <? error_tolerance).
    + unfold mbind, Py_bind, get, mret, Py_ret in Hrun. now injection Hrun as _ <-.
    + destruct (IH _ _ Hrun) as [[_ ->] | H]; assumption.
Qed.

(** A call of [train] with at least one epoch that returns (a pair or
    None) leaves the raw sample in [layer.input_dataset]. *)
Lemma train_refreshes_input learning_rate (layer : Layer) r layer' :
  (1 <= epochs)%Z ->
  train self data_number epochs learning_decay error_tolerance regularization
    lasso ridge learning_rate layer = (Ok r, layer') ->
  input_dataset layer' = x.
Proof.
  intros Hep Hrun. unfold train in Hrun.
  destruct (train_loop_input _ _ _ _ _ Hrun) as [[Hnil _] | H]; [| exact H].
  exfalso. unfold py_range in Hnil.
  replace (Z.to_nat epochs) with (Datatypes.S (Z.to_nat epochs - 1)) in Hnil by lia.
  discriminate.
Qed.

(** So with at least one epoch [train] does not depend on the input the
    caller stored in the layer before the call. *)
Lemma train_ignores_stored_input learning_rate (layer : Layer) (stored : list float) :
  (1 <= epochs)%Z ->
  train self data_number epochs learning_decay error_tolerance regularization
    lasso ridge learning_rate (with_input_dataset stored layer)
  = train self data_number epochs learning_decay error_tolerance regularization
      lasso ridge learning_rate layer.
Proof.
  intros Hep. unfold train, py_range.
  replace (Z.to_nat epochs) with (Datatypes.S (Z.to_nat epochs - 1)) by lia.
  cbn [seq fmap list_fmap train_loop].
  unfold mbind at 1 3, Py_bind at 1 3.
  assert (Hepoch : forall epoch,
             train_epoch self data_number epochs learning_decay regularization lasso
               ridge epoch learning_rate (with_input_dataset stored layer)
             = train_epoch self data_number epochs learning_decay regularization lasso
                 ridge epoch learning_rate layer).
  { intros epoch. unfold train_epoch.
    unfold mbind at 1 10, Py_bind at 1 10, lift at 1 5. rewrite sample_is_x.
    reflexivity. }
  now rewrite Hepoch.
Qed.
End train_input.

(** ** [train] with fewer than four epochs

    In an epoch the learning-rate decay is computed before the tolerance is
    tested, and with one, two or three epochs it divides by
    [epochs // 4 = 0]. *)

Section train_below_four_epochs.
Import MachineLearning.
Local Open Scope float_scope.
Variable self : Data.t.
Variables (data_number epochs : Z).
Variables (learning_decay error_tolerance regularization : float).
Variables (lasso ridge : bool).

(** C4 (what the code does): with one, two or three epochs, a first epoch
    that fetches its sample, computes the prediction, finds its target and
    updates the weights ends in ZeroDivisionError, whatever the tolerance
    is.  So where [abs(prediction - target) < error_tolerance] holds in
    that epoch [train] does not return the pair, and where it does not
    hold [train] does not return None: the call raises, leaving the layer
    with the weights and the bias of that one update. *)
Theorem train_raises_before_tolerance_test
    (learning_rate : float) (layer : Layer) x outputs target outputs' :
  (1 <= epochs < 4)%Z ->
  Data.get_data_sample self = Ok x ->
  get_layer_dataset (with_input_dataset x layer) = Ok outputs ->
  Data.get_normalized_target_value self data_number = Ok target ->
  Forall (fun row => length row <= length x) (weights layer) ->
  let prediction := py_sum outputs in
  let updated :=
    (update_weights (prediction - target) lasso ridge learning_rate regularization
       (with_input_dataset x layer)).2 in
  get_layer_dataset updated = Ok outputs' ->
  train self data_number epochs learning_decay error_tolerance regularization
    lasso ridge learning_rate layer
  = (Raise ZeroDivisionError, updated).
Proof.
  intros Hep Hx Hout Ht Hfit prediction updated Hout'.
  assert (Hupd : update_weights (prediction - target) lasso ridge learning_rate
                   regularization (with_input_dataset x layer) = (Ok tt, updated)).
  { unfold updated. now rewrite update_weights_closed_form by exact Hfit. }
  unfold train, py_range.
  replace (Z.to_nat epochs) with (Datatypes.S (Z.to_nat epochs - 1)) by lia.
  cbn [seq fmap list_fmap train_loop]. unfold mbind at 1, Py_bind at 1.
  unfold train_epoch. unfold mbind at 1, Py_bind at 1, lift at 1. rewrite Hx.
  unfold mbind at 1, Py_bind at 1, set_input_dataset at 1.
  unfold mbind at 1, Py_bind at 1, get at 1.
  unfold mbind at 1, Py_bind at 1, lift at 1. rewrite Hout.
  unfold mbind at 1, Py_bind at 1, lift at 1. rewrite Ht.
  unfold mbind at 1, Py_bind at 1. fold prediction. rewrite Hupd.
  unfold mbind at 1, Py_bind at 1.
  change (Z.of_nat 0) with 0%Z.
  unfold __get_train_visualisation. change (0 mod 100 =? 0)%Z with true. cbv iota.
  unfold mbind at 1, Py_bind at 1, lift at 1.
  destruct (_calculate_error prediction target) as [err | e] eqn:Herr.
  - unfold mbind at 1, Py_bind at 1, get at 1.
    unfold mbind at 1, Py_bind at 1, lift at 1. rewrite Hout'.
    unfold mret at 1, Py_ret at 1.
    unfold mbind at 1, Py_bind at 1, lift at 1.
    unfold _calculate_learning_decay, py_mod.
    rewrite Z.div_small by lia. reflexivity.
  - unfold _calculate_error, py_div in Herr.
    destruct (target =? 0); [| discriminate].
    cbn [mbind res_bind] in Herr. now injection Herr as <-.
Qed.
End train_below_four_epochs.

Section train_below_four_epochs_witness.
Import MachineLearning Scenario.
Local Open Scope float_scope.

(** [train_raises_before_tolerance_test] on the one-neuron layer with three
    epochs: the first epoch predicts 1.0 for the target 0.1, which is
    within the tolerance 1000 and not within the tolerance 0; either way
    the call raises ZeroDivisionError after the one update. *)
Lemma train_raises_before_tolerance_test_witness :
  let updated :=
    mkLayer [[0.40999999999999998; 0.069999999999999979]] (-0.090000000000000011)
            [1; 2] (forward single) in
  (1 <= 3 < 4)%Z /\
  Data.get_data_sample cube = Ok [1; 2] /\
  get_layer_dataset (with_input_dataset [1; 2] single) = Ok [1] /\
  Data.get_normalized_target_value cube 1 = Ok 0.1 /\
  Forall (fun row => length row <= length [1; 2]) (weights single) /\
  py_sum [1] = 1 /\
  (abs (1 - 0.1) <? 1000) = true /\
  (abs (1 - 0.1) <? 0) = false /\
  train cube 1 3 0.9 1000 0 false true 0.1 single = (Raise ZeroDivisionError, updated) /\
  train cube 1 3 0.9 0 0 false true 0.1 single = (Raise ZeroDivisionError, updated).
Proof.
  intros updated.
  assert (Hep : (1 <= 3 < 4)%Z) by lia.
  assert (Hfit : Forall (fun row => length row <= length [1; 2]) (weights single)).
  { repeat constructor. }
  split; [exact Hep |]. split; [reflexivity |]. split; [reflexivity |].
  split; [reflexivity |]. split; [exact Hfit |]. split; [reflexivity |].
  split; [reflexivity |]. split; [reflexivity |]. split.
  - exact (train_raises_before_tolerance_test
             cube 1 3 0.9 1000 0 false true 0.1 single [1; 2] [1] 0.1
             [0.45999999999999991]
             Hep eq_refl eq_refl eq_refl Hfit eq_refl).
  - exact (train_raises_before_tolerance_test
             cube 1 3 0.9 0 0 false true 0.1 single [1; 2] [1] 0.1
             [0.45999999999999991]
             Hep eq_refl eq_refl eq_refl Hfit eq_refl).
Defined.
End train_below_four_epochs_witness.

(** ** [train_layers_on_dataset] *)

Lemma Py_bind_inv {S A B} (m : Py S A) (f : A -> Py S B) s b s' :
  (m ≫= f) s = (Ok b, s') ->
  exists a s1, m s = (Ok a, s1) /\ f a s1 = (Ok b, s').
Proof.
  unfold mbind, Py_bind. destruct (m s) as [[a | e] s1]; [eauto | discriminate].
Qed.

Lemma lift_inv {S A} (r : res A) (s s' : S) a :
  lift r s = (Ok a, s') -> r = Ok a /\ s' = s.
Proof. unfold lift. now intros [= -> ->]. Qed.

Section on_layers.
Import MachineLearning.
Context {A : Type}.
Variable m : Py Layer A.

Lemma on_first_inv n a n' :
  on_first m n = (Ok a, n') ->
  exists l, m (hidden_layer_first n) = (Ok a, l) /\
            n' = mkNet l (hidden_layer_second n) (output_outer_layer n).
Proof.
  unfold on_first. destruct (m (hidden_layer_first n)) as [r l].
  intros [= -> <-]. eauto.
Qed.

Lemma on_second_inv n a n' :
  on_second m n = (Ok a, n') ->
  exists l, m (hidden_layer_second n) = (Ok a, l) /\
            n' = mkNet (hidden_layer_first n) l (output_outer_layer n).
Proof.
  unfold on_second. destruct (m (hidden_layer_second n)) as [r l].
  intros [= -> <-]. eauto.
Qed.

Lemma on_outer_inv n a n' :
  on_outer m n = (Ok a, n') ->
  exists l, m (output_outer_layer n) = (Ok a, l) /\
            n' = mkNet (hidden_layer_first n) (hidden_layer_second n) l.
Proof.
  unfold on_outer. destruct (m (output_outer_layer n)) as [r l].
  intros [= -> <-]. eauto.
Qed.
End on_layers.

Section dataset_facts.
Import MachineLearning.
Local Open Scope float_scope.
Variable self : Data.t.
Variable epochs : Z.
Variables (learning_rate learning_decay error_tolerance regularization : float).
Variables (lasso ridge : bool).

(** One pass of the body that ends without exception: the local sample
    index has grown by one, and, when there is at least one epoch, the
    second hidden layer and the output layer were left by [train] with the
    raw sample as their input, not with the previous layer's output that
    was stored there before the call; each of the two is the layer [train]
    leaves when started on the layer as it was before the pass, so neither
    depends on the layer before it. *)
Lemma dataset_step_ok (data_number data_number' : Z) (n n' : Net) :
  dataset_step self epochs learning_rate learning_decay error_tolerance regularization
    lasso ridge data_number n = (Ok data_number', n') ->
  data_number' = (data_number + 1)%Z /\
  ((1 <= epochs)%Z ->
   (exists x, Data.get_data_sample self = Ok x /\
              input_dataset (hidden_layer_first n') = x /\
              input_dataset (hidden_layer_second n') = x /\
              input_dataset (output_outer_layer n') = x) /\
   (exists r,
       train_layer self epochs learning_rate learning_decay error_tolerance
         regularization lasso ridge data_number (hidden_layer_second n)
       = (Ok r, hidden_layer_second n')) /\
   (exists r,
       train_layer self epochs learning_rate learning_decay error_tolerance
         regularization lasso ridge data_number (output_outer_layer n)
       = (Ok r, output_outer_layer n'))).
Proof.
  intros Hrun. unfold dataset_step in Hrun.
  apply Py_bind_inv in Hrun as (x & n0 & Hx & Hrun). apply lift_inv in Hx as [Hx ->].
  apply Py_bind_inv in Hrun as ([] & n1 & H1 & Hrun).
  apply on_first_inv in H1 as (l1 & Hl1 & ->).
  apply Py_bind_inv in Hrun as (r1 & n2 & H2 & Hrun).
  apply on_first_inv in H2 as (l2 & Hl2 & ->). cbn in Hl2.
  apply Py_bind_inv in Hrun as (n2' & n2'' & Hg & Hrun).
  injection Hg as <- <-.
  apply Py_bind_inv in Hrun as (x1 & n2' & Hx1 & Hrun). apply lift_inv in Hx1 as [Hx1 ->].
  apply Py_bind_inv in Hrun as ([] & n3 & H3 & Hrun).
  apply on_second_inv in H3 as (l3 & Hl3 & ->).
  apply Py_bind_inv in Hrun as (r2 & n4 & H4 & Hrun).
  apply on_second_inv in H4 as (l4 & Hl4 & ->). cbn in Hl4.
  apply Py_bind_inv in Hrun as (n4' & n4'' & Hg & Hrun).
  injection Hg as <- <-.
  apply Py_bind_inv in Hrun as (x2 & n4' & Hx2 & Hrun). apply lift_inv in Hx2 as [Hx2 ->].
  apply Py_bind_inv in Hrun as ([] & n5 & H5 & Hrun).
  apply on_outer_inv in H5 as (l5 & Hl5 & ->).
  apply Py_bind_inv in Hrun as (r3 & n6 & H6 & Hrun).
  apply on_outer_inv in H6 as (l6 & Hl6 & ->). cbn in Hl6.
  apply Py_bind_inv in Hrun as ([] & n7 & H7 & Hrun).
  unfold __get_train_layers_on_dataset_visualisation in H7.
  apply Py_bind_inv in H7 as (n6' & n6'' & Hg & H7). injection Hg as <- <-.
  apply Py_bind_inv in H7 as (out & n6' & Hout & H7). apply lift_inv in Hout as [_ ->].
  injection H7 as <-. injection Hrun as <- <-.
  split; [reflexivity |]. intros Hep.
  cbn [hidden_layer_first hidden_layer_second output_outer_layer] in *.
  unfold set_input_dataset in Hl3, Hl5.
  injection Hl3 as <-. injection Hl5 as <-.
  unfold train_layer in *.
  split; [| split].
  - exists x. split; [exact Hx |].
    repeat split; eapply train_refreshes_input; eauto.
  - exists r2. rewrite <- Hl4. symmetry.
    exact (train_ignores_stored_input self data_number epochs learning_decay
             error_tolerance regularization lasso ridge x Hx learning_rate
             (hidden_layer_second n) x1 Hep).
  - exists r3. rewrite <- Hl6. symmetry.
    exact (train_ignores_stored_input self data_number epochs learning_decay
             error_tolerance regularization lasso ridge x Hx learning_rate
             (output_outer_layer n) x2 Hep).
Qed.

(** The loop runs its body once per index and counts the sample index up
    by one each time. *)
Lemma dataset_loop_counts {I} (indices : list I) (data_number data_number' : Z) (n n' : Net) :
  dataset_loop self epochs learning_rate learning_decay error_tolerance regularization
    lasso ridge indices data_number n = (Ok data_number', n') ->
  data_number' = (data_number + Z.of_nat (length indices))%Z.
Proof.
  revert data_number n.
  induction indices as [| i indices IH]; intros d n Hrun; cbn [dataset_loop] in Hrun.
  - injection Hrun as <- _. cbn. lia.
  - apply Py_bind_inv in Hrun as (d1 & n1 & Hstep & Hrun).
    apply dataset_step_ok in Hstep as [-> _].
    apply IH in Hrun. cbn [length]. lia.
Qed.

(** What is saved after the loop: the three layers as the loop left them,
    under the three names, weights and biases alike; and the loop ran once
    per entry of the active category. *)
Lemma train_layers_on_dataset_saved (data_number : Z) (n n' : Net) saved :
  train_layers_on_dataset self epochs learning_rate learning_decay error_tolerance
    regularization lasso ridge data_number n = (Ok saved, n') ->
  p_weights saved
  = {[ "hidden_layer_first" := weights (hidden_layer_first n');
       "hidden_layer_second" := weights (hidden_layer_second n');
       "output_outer_layer" := weights (output_outer_layer n') ]} /\
  p_biases saved
  = {[ "hidden_layer_first" := bias (hidden_layer_first n');
       "hidden_layer_second" := bias (hidden_layer_second n');
       "output_outer_layer" := bias (output_outer_layer n') ]} /\
  exists c last,
    Data.active_category self = Ok c /\
    dataset_loop self epochs learning_rate learning_decay error_tolerance
      regularization lasso ridge (py_range (Data.category_len c)) data_number n
    = (Ok last, n') /\
    last = (data_number + Data.category_len c)%Z.
Proof.
  intros Hrun. unfold train_layers_on_dataset in Hrun.
  apply Py_bind_inv in Hrun as (c & n0 & Hc & Hrun). apply lift_inv in Hc as [Hc ->].
  apply Py_bind_inv in Hrun as (last & n1 & Hloop & Hrun).
  apply Py_bind_inv in Hrun as (n1' & n1'' & Hg & Hrun). injection Hg as <- <-.
  injection Hrun as <- <-. cbn [p_weights p_biases _save_weights_and_biases].
  split; [| split].
  - apply map_eq. intros k.
    destruct (decide (k = "hidden_layer_first")) as [-> |]; [by simplify_map_eq |].
    destruct (decide (k = "hidden_layer_second")) as [-> |]; [by simplify_map_eq |].
    destruct (decide (k = "output_outer_layer")) as [-> |]; by simplify_map_eq.
  - apply map_eq. intros k.
    destruct (decide (k = "hidden_layer_first")) as [-> |]; [by simplify_map_eq |].
    destruct (decide (k = "hidden_layer_second")) as [-> |]; [by simplify_map_eq |].
    destruct (decide (k = "output_outer_layer")) as [-> |]; by simplify_map_eq.
  - exists c, last. repeat split; [exact Hc | exact Hloop |].
    rewrite (dataset_loop_counts _ _ _ _ _ Hloop).
    unfold py_range, Data.category_len.
    now rewrite length_fmap, length_seq, Nat2Z.id.
Qed.
End dataset_facts.

Section dataset_run.
Import MachineLearning Closed Scenario.
Local Open Scope float_scope.

(** C8 (what the code does): one pass over the one-entry dataset [cube]
    with three linear layers, four epochs and a tolerance every epoch
    meets.  The call ends normally and saves the layers.  The first
    hidden layer's output is [-3.7, -3.2], and that is what the loop body
    stores as the second layer's input; but [train] overwrites it with the
    raw sample [1.0, 2.0] before it computes anything, so the second
    layer's weights are the ones a step on the raw sample gives, not the
    ones a step on the first layer's output would give.  The same holds
    for the output layer. *)
Theorem train_layers_on_dataset_trains_on_raw_sample :
  let run := train_layers_on_dataset cube 4 0.5 0.9 1000 0 false true 1 net in
  let n' := run.2 in
  let raw := [1; 2] in
  let out1 := [-3.7000000000000002; -3.2000000000000002] in
  (exists saved, run.1 = Ok saved) /\
  Data.get_data_sample cube = Ok raw /\
  get_layer_dataset (hidden_layer_first n') = Ok out1 /\
  input_dataset (hidden_layer_second n') = raw /\
  weights (hidden_layer_second n')
  = weights_after (py_sum [1; 2] - 0.1) false true 0.5 0 raw [[1; 0]; [0; 1]] /\
  weights (hidden_layer_second n')
  <> weights_after (py_sum out1 - 0.1) false true 0.5 0 out1 [[1; 0]; [0; 1]] /\
  input_dataset (output_outer_layer n') = raw.
Proof.
  cbv zeta. split; [eexists; vm_compute; reflexivity |].
  repeat split; try (vm_compute; reflexivity).
  vm_compute. discriminate.
Qed.
End dataset_run.

(** ** data.py: targets by key *)

Section targets.
Import Data Scenario.
Local Open Scope float_scope.

Lemma cube_names_target_values :
  target_values_of ["1"; "2"; "3"; "4"; "5"; "6"] ∅
  = Ok (<["6" := 0.6]> (<["5" := 0.5]> (<["4" := 0.4]>
       (<["3" := 0.3]> (<["2" := 0.2]> (<["1" := 0.1]> ∅)))))).
Proof. reflexivity. Qed.

(** C9: on the dataset {'cube': ['1','2','3','4','5','6']} with data name
    'cube', [get_target_value_by_key] returns float(key) / 10 for each of
    the six keys and 0.0 for every other key; '3' gives 0.3, '6' gives
    0.6 and '10' gives 0.0. *)
Theorem get_target_value_by_key_cube :
  (forall key,
      get_target_value_by_key cube_names key
      = if bool_decide (key ∈ ["1"; "2"; "3"; "4"; "5"; "6"])
        then f ← py_float key; py_div f 10
        else Ok 0) /\
  get_target_value_by_key cube_names "3" = Ok 0.3 /\
  get_target_value_by_key cube_names "6" = Ok 0.6 /\
  get_target_value_by_key cube_names "10" = Ok 0.
Proof.
  split; [| repeat split; reflexivity].
  intros key. unfold get_target_value_by_key.
  change (active_category cube_names)
    with (Ok (CatList ["1"; "2"; "3"; "4"; "5"; "6"])).
  cbn [mbind res_bind category_iter]. rewrite cube_names_target_values.
  cbn [mbind res_bind].
  destruct (decide (key = "6")) as [-> |]; [reflexivity |].
  destruct (decide (key = "5")) as [-> |]; [reflexivity |].
  destruct (decide (key = "4")) as [-> |]; [reflexivity |].
  destruct (decide (key = "3")) as [-> |]; [reflexivity |].
  destruct (decide (key = "2")) as [-> |]; [reflexivity |].
  destruct (decide (key = "1")) as [-> |]; [reflexivity |].
  rewrite !lookup_insert_ne, lookup_empty by congruence.
  rewrite bool_decide_eq_false_2; [reflexivity |].
  rewrite !elem_of_cons, elem_of_nil. tauto.
Qed.
End targets.

(** * Further properties of data.py *)

(** ** Numbered samples *)

Lemma dict_get_imap_from {A} (xs : list A) (off : nat) (k : Z) :
  dict_get k (imap (fun i x => (Z.of_nat (S (off + i)), x)) xs)
  = if decide (Z.of_nat off < k <= Z.of_nat (off + length xs))%Z
    then xs !! (Z.to_nat k - 1 - off)
    else None.
Proof.
  revert off. induction xs as [| x xs IH]; intros off.
  - cbn. case_decide; [| reflexivity].
    cbn in *. lia.
  - cbn [imap dict_get].
    rewrite (imap_ext _ (fun i y => (Z.of_nat (S (S off + i)), y)))
      by (intros i y _; cbn; do 2 f_equal; lia).
    rewrite IH. cbn [length].
    destruct (decide (k = Z.of_nat (S (off + 0)))) as [-> | Hne].
    + rewrite decide_True by lia.
      replace (Z.to_nat (Z.of_nat (S (off + 0))) - 1 - off) with 0 by lia.
      reflexivity.
    + repeat case_decide; try lia; try reflexivity.
      replace (Z.to_nat k - 1 - off) with (S (Z.to_nat k - 1 - S off)) by lia.
      reflexivity.
Qed.

Lemma dict_get_enumerate1 {A} (xs : list A) (k : Z) :
  dict_get k (enumerate1 xs)
  = if decide (1 <= k <= Z.of_nat (length xs))%Z
    then xs !! (Z.to_nat (k - 1))
    else None.
Proof.
  unfold enumerate1.
  rewrite (imap_ext _ (fun i y => (Z.of_nat (S (0 + i)), y))) by reflexivity.
  rewrite dict_get_imap_from.
  repeat case_decide; try lia; try reflexivity.
  f_equal. lia.
Qed.

Lemma enumerate1_keys_from {A} (xs : list A) (off : nat) :
  (imap (fun i x => (Z.of_nat (S (off + i)), x)) xs).*1
  = Z.of_nat <$> seq (S off) (length xs).
Proof.
  revert off. induction xs as [| x xs IH]; intros off; [reflexivity |].
  cbn [imap length seq fmap list_fmap fst].
  rewrite (imap_ext _ (fun i y => (Z.of_nat (S (S off + i)), y)))
    by (intros i y _; cbn; do 2 f_equal; lia).
  rewrite IH. cbn. do 3 f_equal. lia.
Qed.

Lemma enumerate1_values_from {A} (xs : list A) (off : nat) :
  (imap (fun i x => (Z.of_nat (S (off + i)), x)) xs).*2 = xs.
Proof.
  revert off. induction xs as [| x xs IH]; intros off; [reflexivity |].
  cbn [imap fmap list_fmap snd].
  rewrite (imap_ext _ (fun i y => (Z.of_nat (S (S off + i)), y)))
    by (intros i y _; cbn; do 2 f_equal; lia).
  now rewrite IH.
Qed.

Section samples.
Import Data.
Local Open Scope float_scope.
Variable self : Data.t.
Variable classes : list (string * list sample).
Hypothesis active_is_dict :
  dataset self !! data_name self = Some (CatDict classes).

(** The samples of the current class; none when the class has no entry. *)
Let xs : list sample :=
  default [] (dict_get (py_str (data_class_name self)) classes).

Lemma get_data_dict_enumerates :
  get_data_dict self = Ok (enumerate1 xs).
Proof.
  unfold get_data_dict, active_category. now rewrite active_is_dict.
Qed.

(** X1: [get_data_dict] numbers the samples of the current class from 1
    in their order: its keys are 1, 2, ..., n and its values are the
    samples; a class without an entry gives the empty dict, not an
    exception. *)
Theorem get_data_dict_numbers_from_one :
  exists d,
    get_data_dict self = Ok d /\
    d.*1 = Z.of_nat <$> seq 1 (length xs) /\
    d.*2 = xs /\
    (dict_get (py_str (data_class_name self)) classes = None -> d = []).
Proof.
  exists (enumerate1 xs). split; [apply get_data_dict_enumerates |].
  unfold enumerate1.
  rewrite (imap_ext _ (fun i y => (Z.of_nat (S (0 + i)), y))) by reflexivity.
  split; [apply enumerate1_keys_from |]. split; [apply enumerate1_values_from |].
  unfold xs. now intros ->.
Qed.

(** X2: [get_data_sample] returns the sample at position
    [data_number - 1] when 1 <= data_number <= n, and raises ValueError
    for every other number: zero and negative numbers do not count from
    the end. *)
Theorem get_data_sample_bounds :
  (forall s,
      (1 <= data_number self)%Z ->
      xs !! Z.to_nat (data_number self - 1) = Some s ->
      get_data_sample self = Ok s) /\
  ((data_number self < 1 \/ Z.of_nat (length xs) < data_number self)%Z ->
   get_data_sample self = Raise ValueError).
Proof.
  unfold get_data_sample. rewrite get_data_dict_enumerates.
  cbn [mbind res_bind]. rewrite dict_get_enumerate1. split.
  - intros s Hpos Hs. pose proof (lookup_lt_Some _ _ _ Hs).
    rewrite decide_True by lia. now rewrite Hs.
  - intros Hout. rewrite decide_False by lia. reflexivity.
Qed.

(** X3: [get_normalized_target_value(k)] is k / 10 for 1 <= k <= n.  For
    -n < k <= 0 the list index k - 1 counts from the end, so the call
    returns (n + k) / 10 (for k = 0, the target of the last sample)
    instead of failing; outside -n < k <= n it raises IndexError. *)
Theorem get_normalized_target_value_index (k : Z) :
  let n := Z.of_nat (length xs) in
  ((1 <= k <= n)%Z ->
   get_normalized_target_value self k = Ok (float_of_int k / 10)) /\
  ((- n < k <= 0)%Z ->
   get_normalized_target_value self k = Ok (float_of_int (n + k) / 10)) /\
  ((k <= - n \/ n < k)%Z ->
   get_normalized_target_value self k = Raise IndexError).
Proof.
  intros n. unfold get_normalized_target_value.
  rewrite get_data_dict_enumerates. cbn [mbind res_bind].
  unfold enumerate1.
  rewrite (imap_ext _ (fun i y => (Z.of_nat (S (0 + i)), y))) by reflexivity.
  rewrite enumerate1_keys_from.
  unfold py_index, py_pos. rewrite length_fmap, length_seq. fold n.
  repeat split.
  - intros Hk.
    destruct (Z.leb_spec 0 (k - 1)); [| lia].
    destruct (Z.ltb_spec (k - 1) n); [| lia].
    cbn [mbind res_bind]. rewrite list_lookup_fmap, lookup_seq_lt by lia.
    cbn. replace (Z.of_nat (S (Z.to_nat (k - 1)))) with k by lia. reflexivity.
  - intros Hk.
    destruct (Z.leb_spec 0 (k - 1)); [lia |].
    destruct (Z.leb_spec (- n) (k - 1)); [| lia].
    cbn [mbind res_bind]. rewrite list_lookup_fmap, lookup_seq_lt by lia.
    cbn. replace (Z.of_nat (S (Z.to_nat (n + (k - 1))))) with (n + k)%Z by lia.
    reflexivity.
  - intros Hk.
    destruct (Z.leb_spec 0 (k - 1)).
    + destruct (Z.ltb_spec (k - 1) n); [lia | reflexivity].
    + destruct (Z.leb_spec (- n) (k - 1)); [lia | reflexivity].
Qed.
End samples.

Section samples_witnesses.
Import Data Scenario.
Local Open Scope float_scope.

Lemma get_data_dict_numbers_witness :
  dataset cube !! data_name cube = Some (CatDict [("1", [[1; 2]; [0.5; 0.5]])]) /\
  exists d,
    get_data_dict cube = Ok d /\
    d.*1 = [1%Z; 2%Z] /\
    d.*2 = [[1; 2]; [0.5; 0.5]].
Proof.
  split; [reflexivity |].
  destruct (get_data_dict_numbers_from_one cube [("1", [[1; 2]; [0.5; 0.5]])] eq_refl)
    as (d & Hd & Hk & Hv & _).
  exists d. split; [exact Hd |]. split; [exact Hk | exact Hv].
Defined.

Lemma get_data_sample_bounds_witness :
  dataset cube !! data_name cube = Some (CatDict [("1", [[1; 2]; [0.5; 0.5]])]) /\
  (1 <= data_number cube)%Z /\
  get_data_sample cube = Ok [1; 2].
Proof.
  split; [reflexivity |]. split; [reflexivity |].
  exact (proj1 (get_data_sample_bounds cube [("1", [[1; 2]; [0.5; 0.5]])] eq_refl)
               [1; 2] ltac:(reflexivity) eq_refl).
Defined.

Lemma get_normalized_target_value_index_witness :
  dataset cube !! data_name cube = Some (CatDict [("1", [[1; 2]; [0.5; 0.5]])]) /\
  (- 2 < 0 <= 0)%Z /\
  get_normalized_target_value cube 0 = Ok (float_of_int 2 / 10).
Proof.
  split; [reflexivity |]. split; [lia |].
  exact (proj1 (proj2 (get_normalized_target_value_index
                         cube [("1", [[1; 2]; [0.5; 0.5]])] eq_refl 0%Z))
               ltac:(vm_compute; split; [reflexivity | discriminate])).
Defined.
End samples_witnesses.

(** ** Targets by key, for any dataset *)

Lemma py_float_raises_ValueError (s : string) (e : exn) :
  py_float s = Raise e -> e = ValueError.
Proof.
  unfold py_float. destruct s; [now intros [= <-] |].
  destruct (15 <? _)%nat; [now intros [= <-] |].
  destruct (digits_value _ _); [discriminate | now intros [= <-]].
Qed.

Lemma digits_value_foreign_letter (s : string) (acc : Z) :
  has_foreign_letter s = true -> digits_value acc s = None.
Proof.
  revert acc. induction s as [| c s IH]; intros acc; [discriminate |].
  cbn [has_foreign_letter digits_value]. intros Hs.
  destruct (digit_of_ascii c) as [d |] eqn:Hd; [| reflexivity].
  apply IH. apply orb_true_iff in Hs as [Hc | Hs]; [| exact Hs].
  exfalso. unfold digit_of_ascii in Hd. unfold foreign_letter in Hc.
  cbv zeta in Hc. destruct ((48 <=? _) && _)%Z eqn:Hrange in Hd; [| discriminate].
  apply andb_true_iff in Hrange as [Hlo Hhi].
  apply Z.leb_le in Hlo, Hhi.
  apply andb_true_iff in Hc as [Hc _].
  apply andb_true_iff in Hc as [Hc _]. apply Z.leb_le in Hc.
  destruct ((65 <=? _) && _)%Z eqn:Hupper in Hc.
  - apply andb_true_iff in Hupper as [Hu _]. apply Z.leb_le in Hu. lia.
  - lia.
Qed.

(** The model of [float] refuses what [float] certainly refuses. *)
Lemma py_float_foreign_letter (s : string) :
  has_foreign_letter s = true -> py_float s = Raise ValueError.
Proof.
  intros Hs. unfold py_float. destruct s as [| c s]; [reflexivity |].
  destruct (15 <? _)%nat; [reflexivity |].
  now rewrite (digits_value_foreign_letter _ 0 Hs).
Qed.

Lemma py_div_10 (f : float) : py_div f 10 = Ok (f / 10)%float.
Proof. reflexivity. Qed.

Section target_values.
Import Data.
Local Open Scope float_scope.

(** With every key a number, the comprehension ends normally, keeps what
    it was given for the keys it does not meet, and holds float(key) / 10
    for each key it meets. *)
Lemma target_values_of_lookup (keys : list string) (acc : gmap string float) :
  Forall (fun key => exists f, py_float key = Ok f) keys ->
  exists m,
    target_values_of keys acc = Ok m /\
    (forall key, key ∉ keys -> m !! key = acc !! key) /\
    (forall key f, key ∈ keys -> py_float key = Ok f -> m !! key = Some (f / 10)).
Proof.
  intros Hall. revert acc.
  induction Hall as [| k keys [fk Hk] _ IH]; intros acc.
  - exists acc. split; [reflexivity |]. split; [reflexivity |].
    intros key f Hin. now apply elem_of_nil in Hin.
  - cbn [target_values_of]. rewrite Hk. cbn [mbind res_bind].
    rewrite py_div_10. cbn [mbind res_bind].
    destruct (IH (<[k := fk / 10]> acc)) as (m & Hm & Hout & Hin).
    exists m. split; [exact Hm |]. split.
    + intros key Hnot. apply not_elem_of_cons in Hnot as [Hne Hnot].
      rewrite (Hout key Hnot). now rewrite lookup_insert_ne.
    + intros key f Hkey Hf.
      destruct (decide (key ∈ keys)) as [Hmem | Hmem]; [now apply Hin |].
      apply elem_of_cons in Hkey as [-> | Hkey]; [| contradiction].
      rewrite (Hout k Hmem), lookup_insert_eq. congruence.
Qed.

(** A key that is no number stops the comprehension. *)
Lemma target_values_of_fails (keys : list string) (acc : gmap string float) key0 e0 :
  key0 ∈ keys -> py_float key0 = Raise e0 ->
  target_values_of keys acc = Raise ValueError.
Proof.
  intros Hin Hbad. revert acc.
  induction keys as [| k keys IH]; intros acc; [now apply elem_of_nil in Hin |].
  cbn [target_values_of].
  destruct (py_float k) as [fk | e] eqn:Hk.
  - cbn [mbind res_bind]. rewrite py_div_10. cbn [mbind res_bind].
    apply IH. apply elem_of_cons in Hin as [-> | Hin]; [congruence | exact Hin].
  - cbn [mbind res_bind]. now rewrite (py_float_raises_ValueError _ _ Hk).
Qed.

Variable self : Data.t.
Variable c : category.
Hypothesis active_is_c : dataset self !! data_name self = Some c.

(** X4: when every name of the active category is a number,
    [get_target_value_by_key] returns float(key) / 10 for a key of the
    category and 0.0 for any other key; it never raises. *)
Theorem get_target_value_by_key_present_or_zero (value_by_key : string) :
  Forall (fun key => exists f, py_float key = Ok f) (category_iter c) ->
  (forall f,
      value_by_key ∈ category_iter c -> py_float value_by_key = Ok f ->
      get_target_value_by_key self value_by_key = Ok (f / 10)) /\
  (value_by_key ∉ category_iter c ->
   get_target_value_by_key self value_by_key = Ok 0).
Proof.
  intros Hall.
  destruct (target_values_of_lookup (category_iter c) ∅ Hall) as (m & Hm & Hout & Hin).
  unfold get_target_value_by_key, active_category. rewrite active_is_c.
  cbn [mbind res_bind]. rewrite Hm. cbn [mbind res_bind]. split.
  - intros f Hmem Hf. now rewrite (Hin _ _ Hmem Hf).
  - intros Hnot. now rewrite (Hout _ Hnot), lookup_empty.
Qed.

(** X5: one name in the active category that is no number (here: a name
    holding a letter that no number has) makes [get_target_value_by_key]
    raise ValueError for every key asked for, also for keys that are
    numbers and for keys that are absent. *)
Theorem get_target_value_by_key_bad_name (bad : string) (value_by_key : string) :
  bad ∈ category_iter c -> has_foreign_letter bad = true ->
  get_target_value_by_key self value_by_key = Raise ValueError.
Proof.
  intros Hin Hbad. apply py_float_foreign_letter in Hbad.
  unfold get_target_value_by_key, active_category. rewrite active_is_c.
  cbn [mbind res_bind].
  now rewrite (target_values_of_fails _ _ _ _ Hin Hbad).
Qed.
End target_values.

Section target_values_witnesses.
Import Data Scenario.
Local Open Scope float_scope.

Lemma get_target_value_by_key_present_witness :
  dataset cube_names !! data_name cube_names
  = Some (CatList ["1"; "2"; "3"; "4"; "5"; "6"]) /\
  "4" ∈ ["1"; "2"; "3"; "4"; "5"; "6"] /\
  py_float "4" = Ok 4 /\
  get_target_value_by_key cube_names "4" = Ok (4 / 10).
Proof.
  assert (Hin : "4" ∈ ["1"; "2"; "3"; "4"; "5"; "6"]) by (rewrite !elem_of_cons; auto 10).
  assert (Hall : Forall (fun key => exists f, py_float key = Ok f)
                        (category_iter (CatList ["1"; "2"; "3"; "4"; "5"; "6"]))).
  { repeat constructor; eexists; reflexivity. }
  split; [reflexivity |]. split; [exact Hin |]. split; [reflexivity |].
  exact (proj1 (get_target_value_by_key_present_or_zero
                  cube_names (CatList ["1"; "2"; "3"; "4"; "5"; "6"]) eq_refl "4" Hall)
               4 Hin eq_refl).
Defined.

Lemma get_target_value_by_key_bad_name_witness :
  let self := Data.mk "cube" 1 1 {["cube" := CatList ["1"; "two"; "3"]]} in
  dataset self !! data_name self = Some (CatList ["1"; "two"; "3"]) /\
  "two" ∈ ["1"; "two"; "3"] /\
  has_foreign_letter "two" = true /\
  get_target_value_by_key self "1" = Raise ValueError.
Proof.
  intros self.
  assert (Hin : "two" ∈ ["1"; "two"; "3"]) by (rewrite !elem_of_cons; auto 10).
  split; [reflexivity |]. split; [exact Hin |]. split; [reflexivity |].
  exact (get_target_value_by_key_bad_name
           self (CatList ["1"; "two"; "3"]) eq_refl "two" "1" Hin eq_refl).
Defined.
End target_values_witnesses.

(** * Further properties of machine_learning.py *)

(** ** One gradient-descent step *)

Section one_step.
Import MachineLearning.
Local Open Scope float_scope.

(** X6: a call of [_calculate_gradient_descent] that returns has replaced
    one entry of the matrix, the one at row i and column j (either index
    may count from the end), by
    [w - learning_rate * gradient * input_dataset[j]]; every other row
    and every other entry of that row is as before, and no row or entry
    is added or removed. *)
Theorem calculate_gradient_descent_one_entry
    (X : list float) (learning_rate gradient : float)
    (W W' : list (list float)) (i j : Z) :
  _calculate_gradient_descent X learning_rate gradient W i j = Ok W' ->
  exists (a b : nat) (row : list float) (w x : float),
    py_pos W i = Ok a /\ W !! a = Some row /\
    py_pos row j = Ok b /\ row !! b = Some w /\
    py_index X j = Ok x /\
    (exists row', W' !! a = Some row' /\
                  row' !! b = Some (w - learning_rate * gradient * x) /\
                  length row' = length row /\
                  forall b', b' <> b -> row' !! b' = row !! b') /\
    (forall a', a' <> a -> W' !! a' = W !! a') /\
    length W' = length W.
Proof.
  unfold _calculate_gradient_descent.
  destruct (py_index W i) as [row | e] eqn:Hrow; cbn [mbind res_bind]; [| discriminate].
  destruct (py_index row j) as [w | e] eqn:Hw; cbn [mbind res_bind]; [| discriminate].
  destruct (py_index X j) as [x | e] eqn:Hx; cbn [mbind res_bind]; [| discriminate].
  apply py_index_inv in Hrow as (a & Ha & Hrow).
  apply py_index_inv in Hw as (b & Hb & Hw).
  unfold py_setitem. rewrite Hb. cbn [mbind res_bind]. rewrite Ha. cbn [mbind res_bind].
  intros [= <-].
  exists a, b, row, w, x. repeat split; try assumption.
  - exists (<[b := w - learning_rate * gradient * x]> row).
    pose proof (lookup_lt_Some _ _ _ Hrow). pose proof (lookup_lt_Some _ _ _ Hw).
    repeat split.
    + now apply list_lookup_insert_eq.
    + now apply list_lookup_insert_eq.
    + apply length_insert.
    + intros b' Hne. now apply list_lookup_insert_ne.
  - intros a' Hne. now apply list_lookup_insert_ne.
  - apply length_insert.
Qed.

Lemma calculate_gradient_descent_one_entry_witness :
  _calculate_gradient_descent [1; 2] 0.5 0.5 [[1; 2]; [3; 4]] (-1) 1
  = Ok [[1; 2]; [3; 3.5]] /\
  exists (a b : nat) (row : list float) (w x : float),
    py_pos [[1; 2]; [3; 4]] (-1) = Ok a /\ [[1; 2]; [3; 4]] !! a = Some row /\
    py_pos row 1 = Ok b /\ row !! b = Some w /\
    py_index [1; 2] 1 = Ok x /\
    (exists row', [[1; 2]; [3; 3.5]] !! a = Some row' /\
                  row' !! b = Some (w - 0.5 * 0.5 * x) /\
                  length row' = length row /\
                  forall b', b' <> b -> row' !! b' = row !! b') /\
    (forall a', a' <> a -> [[1; 2]; [3; 3.5]] !! a' = [[1; 2]; [3; 4]] !! a') /\
    length [[1; 2]; [3; 3.5]] = length [[1; 2]; [3; 4]].
Proof.
  split; [reflexivity |].
  exact (calculate_gradient_descent_one_entry
           [1; 2] 0.5 0.5 [[1; 2]; [3; 4]] [[1; 2]; [3; 3.5]] (-1) 1 eq_refl).
Defined.
End one_step.

(** ** How a call of [update_weights] can end *)

Lemma for_each_ok_elem {S A} (P : S -> Prop) (xs : list A) (body : A -> Py S unit) s s' :
  (forall x s, P s -> P (body x s).2) ->
  P s ->
  for_each xs body s = (Ok tt, s') ->
  forall x, x ∈ xs -> exists s0 s1, P s0 /\ body x s0 = (Ok tt, s1).
Proof.
  intros Hbody. revert s.
  induction xs as [| y xs IH]; intros s Hs Hrun x Hin; [now apply elem_of_nil in Hin |].
  cbn [for_each] in Hrun.
  apply Py_bind_inv in Hrun as ([] & s1 & Hy & Hrun).
  apply elem_of_cons in Hin as [-> | Hin]; [eauto |].
  apply (IH s1); [| exact Hrun | exact Hin].
  specialize (Hbody y s Hs). now rewrite Hy in Hbody.
Qed.

Lemma for_each_raise {S A} (Q : exn -> Prop) (xs : list A) (body : A -> Py S unit) s e s' :
  (forall x s e s', body x s = (Raise e, s') -> Q e) ->
  for_each xs body s = (Raise e, s') -> Q e.
Proof.
  intros Hbody. revert s.
  induction xs as [| y xs IH]; intros s Hrun; [discriminate |].
  cbn [for_each] in Hrun. unfold mbind, Py_bind in Hrun.
  destruct (body y s) as [[[] | e1] s1] eqn:Hy.
  - now apply (IH s1).
  - injection Hrun as <- <-. eapply Hbody; eauto.
Qed.

Lemma py_range_elem (j m : nat) : j < m -> Z.of_nat j ∈ py_range (Z.of_nat m).
Proof.
  intros Hj. unfold py_range. rewrite Nat2Z.id.
  apply list_elem_of_fmap. exists j. split; [reflexivity |].
  apply elem_of_seq. lia.
Qed.

Lemma py_pos_raises {A} (l : list A) (i : Z) e :
  py_pos l i = Raise e -> e = IndexError.
Proof.
  unfold py_pos. repeat case_match; congruence.
Qed.

Lemma py_index_raises {A} (l : list A) (i : Z) e :
  py_index l i = Raise e -> e = IndexError.
Proof.
  unfold py_index. destruct (py_pos l i) as [k | e0] eqn:Hk; cbn [mbind res_bind].
  - destruct (l !! k); congruence.
  - intros [= <-]. eapply py_pos_raises; eauto.
Qed.

Lemma py_setitem_raises {A} (l : list A) (i : Z) (x : A) e :
  py_setitem l i x = Raise e -> e = IndexError.
Proof.
  unfold py_setitem. destruct (py_pos l i) as [k | e0] eqn:Hk; cbn [mbind res_bind].
  - discriminate.
  - intros [= <-]. eapply py_pos_raises; eauto.
Qed.

Lemma py_index_at_length {A} (l : list A) :
  py_index l (Z.of_nat (length l)) = Raise IndexError.
Proof.
  unfold py_index, py_pos.
  destruct (Z.leb_spec 0 (Z.of_nat (length l))); [| lia].
  destruct (Z.ltb_spec (Z.of_nat (length l)) (Z.of_nat (length l))); [lia |].
  reflexivity.
Qed.

Section update_weights_outcome.
Import MachineLearning.
Local Open Scope float_scope.
Variables (gradient : float) (lasso ridge : bool) (learning_rate regularization : float).

Lemma get_lasso_regularization_raises (W : list (list float)) i j e :
  _get_lasso_regularization regularization W i j = Raise e -> e = IndexError.
Proof.
  unfold _get_lasso_regularization.
  destruct (py_index W i) as [row | e0] eqn:Hrow; cbn [mbind res_bind].
  - destruct (py_index row j) as [w | e1] eqn:Hw; cbn [mbind res_bind]; [discriminate |].
    intros [= <-]. eapply py_index_raises; eauto.
  - intros [= <-]. eapply py_index_raises; eauto.
Qed.

Lemma get_ridge_regularization_raises (W : list (list float)) i j e :
  _get_ridge_regularization regularization W i j = Raise e -> e = IndexError.
Proof.
  unfold _get_ridge_regularization.
  destruct (py_index W i) as [row | e0] eqn:Hrow; cbn [mbind res_bind].
  - destruct (py_index row j) as [w | e1] eqn:Hw; cbn [mbind res_bind]; [discriminate |].
    intros [= <-]. eapply py_index_raises; eauto.
  - intros [= <-]. eapply py_index_raises; eauto.
Qed.

Lemma calculate_gradient_descent_raises (X : list float) g (W : list (list float)) i j e :
  _calculate_gradient_descent X learning_rate g W i j = Raise e -> e = IndexError.
Proof.
  unfold _calculate_gradient_descent.
  destruct (py_index W i) as [row | e0] eqn:Hrow; cbn [mbind res_bind];
    [| intros [= <-]; eapply py_index_raises; eauto].
  destruct (py_index row j) as [w | e1] eqn:Hw; cbn [mbind res_bind];
    [| intros [= <-]; eapply py_index_raises; eauto].
  destruct (py_index X j) as [x | e2] eqn:Hx; cbn [mbind res_bind];
    [| intros [= <-]; eapply py_index_raises; eauto].
  destruct (py_setitem row j _) as [row' | e3] eqn:Hset; cbn [mbind res_bind];
    [| intros [= <-]; eapply py_setitem_raises; eauto].
  apply py_setitem_raises.
Qed.

Lemma calculate_gradient_descent_reads_input (X : list float) g (W W' : list (list float)) i j :
  _calculate_gradient_descent X learning_rate g W i j = Ok W' ->
  exists x, py_index X j = Ok x.
Proof.
  unfold _calculate_gradient_descent.
  destruct (py_index W i) as [row | e0]; cbn [mbind res_bind]; [| discriminate].
  destruct (py_index row j) as [w | e1]; cbn [mbind res_bind]; [| discriminate].
  destruct (py_index X j) as [x | e2]; cbn [mbind res_bind]; [eauto | discriminate].
Qed.

(** The body of the inner loop: how it can end and what it leaves. *)
Lemma update_entry_outcome (i j : Z) (layer : Layer) :
  let run := update_entry gradient lasso ridge learning_rate regularization i j layer in
  bias run.2 = bias layer /\
  (forall e, run.1 = Raise e -> e = IndexError) /\
  (run.1 = Ok tt -> exists x, py_index (input_dataset layer) j = Ok x).
Proof.
  unfold update_entry.
  unfold mbind, Py_bind, mret, Py_ret, get, lift, set_weights.
  destruct lasso, ridge; cbn [negb andb];
    repeat match goal with
      | |- context [match ?r with Ok _ => _ | Raise _ => _ end] =>
          let E := fresh "E" in destruct r eqn:E; cbn [fst snd weights input_dataset with_weights]
      end;
    cbn; (split; [reflexivity |]); split;
    try (intros ? [= <-]);
    try discriminate;
    repeat match goal with
      | H : _get_lasso_regularization _ _ _ _ = Raise _ |- _ =>
          apply get_lasso_regularization_raises in H
      | H : _get_ridge_regularization _ _ _ _ = Raise _ |- _ =>
          apply get_ridge_regularization_raises in H
      | H : _calculate_gradient_descent _ _ _ _ _ _ = Raise _ |- _ =>
          apply calculate_gradient_descent_raises in H
      end;
    try assumption;
    try (intros _;
         match goal with
         | H : _calculate_gradient_descent (input_dataset layer) _ _ _ _ _ = Ok _ |- _ =>
             exact (calculate_gradient_descent_reads_input _ _ _ _ _ _ H)
         end).
Qed.
End update_weights_outcome.

Section update_weights_ends.
Import MachineLearning.
Local Open Scope float_scope.
Variables (gradient : float) (lasso ridge : bool) (learning_rate regularization : float).

(** The body of the outer loop of [update_weights], and the two nested
    loops without the bias update. *)
Let outer_body (i : Z) : Py Layer unit :=
  layer ← get;
  row ← lift (py_index (weights layer) i);
  for_each (py_range (Z.of_nat (length row))) (fun j =>
    update_entry gradient lasso ridge learning_rate regularization i j).

Let loops (layer : Layer) : Py Layer unit :=
  for_each (py_range (Z.of_nat (length (weights layer)))) outer_body.

Lemma outer_body_frame (layer0 : Layer) (i : Z) (s : Layer) :
  same_frame layer0 s -> same_frame layer0 (outer_body i s).2.
Proof.
  intros Hs. unfold outer_body, mbind, Py_bind, get, lift.
  destruct (py_index (weights s) i); [| exact Hs].
  apply for_each_state; [| exact Hs].
  intros j s1. apply update_entry_frame.
Qed.

Lemma update_weights_loops (layer : Layer) :
  update_weights gradient lasso ridge learning_rate regularization layer
  = match loops layer layer with
    | (Ok _, s) => (Ok tt, with_bias (bias s - learning_rate * gradient) s)
    | (Raise e, s) => (Raise e, s)
    end.
Proof.
  unfold update_weights, loops, outer_body.
  unfold mbind at 1, Py_bind at 1, get at 1.
  unfold mbind at 1, Py_bind at 1.
  destruct (for_each _ _ layer) as [[[] | e] s]; reflexivity.
Qed.

Lemma loops_bias (layer0 layer : Layer) :
  bias (loops layer0 layer).2 = bias layer.
Proof.
  unfold loops.
  apply (for_each_state (fun s => bias s = bias layer)); [| reflexivity].
  intros i s Hs. unfold outer_body, mbind, Py_bind, get, lift.
  destruct (py_index (weights s) i) as [row | e]; [| exact Hs].
  apply (for_each_state (fun s => bias s = bias layer)); [| exact Hs].
  intros j s' Hs'.
  destruct (update_entry_outcome gradient lasso ridge learning_rate regularization
              i j s') as (Hb & _).
  cbv zeta in Hb. congruence.
Qed.

Lemma loops_raise (layer0 layer s : Layer) e :
  loops layer0 layer = (Raise e, s) -> e = IndexError.
Proof.
  unfold loops. apply (for_each_raise (fun e => e = IndexError)).
  intros i s0 e0 s1. unfold outer_body, mbind, Py_bind, get, lift.
  destruct (py_index (weights s0) i) as [row | e1] eqn:Hrow.
  - apply (for_each_raise (fun e => e = IndexError)). intros j s2 e2 s3 Hrun.
    destruct (update_entry_outcome gradient lasso ridge learning_rate regularization
                i j s2) as (_ & Hr & _).
    cbv zeta in Hr. apply Hr. now rewrite Hrun.
  - intros [= <- <-]. eapply py_index_raises; eauto.
Qed.

(** X7: a call of [update_weights] ends in one of two ways.  Either it
    returns, and then the bias is [bias - learning_rate * gradient]; or it
    raises IndexError (and no other exception), and then the bias is the
    one before the call, whatever was already written to the matrix. *)
Theorem update_weights_returns_or_index_error (layer : Layer) :
  let run := update_weights gradient lasso ridge learning_rate regularization layer in
  (run.1 = Ok tt /\ bias run.2 = bias layer - learning_rate * gradient) \/
  (run.1 = Raise IndexError /\ bias run.2 = bias layer).
Proof.
  cbv zeta. rewrite update_weights_loops.
  pose proof (loops_bias layer layer) as Hb.
  pose proof (loops_raise layer layer) as Hr.
  destruct (loops layer layer) as [[[] | e] s]; cbn in *.
  - left. now rewrite Hb.
  - right. now rewrite (Hr s e eq_refl).
Qed.

(** Returning requires every row to fit the input vector. *)
Lemma loops_ok_rows_fit (layer s : Layer) :
  loops layer layer = (Ok tt, s) ->
  Forall (fun row => length row <= length (input_dataset layer)) (weights layer).
Proof.
  intros Hrun. apply Forall_lookup_2. intros i row0 Hrow0.
  pose proof (lookup_lt_Some _ _ _ Hrow0) as Hi.
  destruct (for_each_ok_elem (same_frame layer) _ outer_body _ _
              (outer_body_frame layer)
              (same_frame_refl layer) Hrun (Z.of_nat i) (py_range_elem i _ Hi))
    as (s0 & s1 & (Hshape & HX & Hfwd) & Hbody).
  unfold outer_body, mbind, Py_bind, get, lift in Hbody.
  assert (Hlen0 : (length <$> weights s0) !! i = Some (length row0))
    by (now rewrite Hshape, list_lookup_fmap, Hrow0).
  rewrite list_lookup_fmap in Hlen0.
  destruct (weights s0 !! i) as [row |] eqn:Hrow; [| discriminate].
  injection Hlen0 as Hlen.
  rewrite (py_index_of_nat _ _ _ Hrow) in Hbody.
  destruct (Nat.le_gt_cases (length row0) (length (input_dataset layer)))
    as [Hfit | Hlong]; [exact Hfit | exfalso].
  assert (Hlt : length (input_dataset layer) < length row) by lia.
  destruct (for_each_ok_elem (same_frame layer) _
              (fun j => update_entry gradient lasso ridge learning_rate regularization
                                     (Z.of_nat i) j) _ _
              (fun j s2 => update_entry_frame gradient lasso ridge learning_rate
                             regularization layer (Z.of_nat i) j s2)
              (conj Hshape (conj HX Hfwd))
              Hbody (Z.of_nat (length (input_dataset layer)))
              (py_range_elem _ _ Hlt))
    as (s2 & s3 & (_ & HX2 & _) & Hentry).
  destruct (update_entry_outcome gradient lasso ridge learning_rate regularization
              (Z.of_nat i) (Z.of_nat (length (input_dataset layer))) s2)
    as (_ & _ & Hin).
  cbv zeta in Hin. rewrite Hentry in Hin. destruct (Hin eq_refl) as [x Hx].
  rewrite HX2, py_index_at_length in Hx. discriminate.
Qed.

(** X8: [update_weights] returns exactly when no row of the matrix is
    longer than the input vector; a row that is longer makes the call
    raise IndexError. *)
Theorem update_weights_returns_iff_rows_fit (layer : Layer) :
  (update_weights gradient lasso ridge learning_rate regularization layer).1 = Ok tt
  <-> Forall (fun row => length row <= length (input_dataset layer)) (weights layer).
Proof.
  split.
  - rewrite update_weights_loops.
    destruct (loops layer layer) as [[[] | e] s] eqn:Hrun; [| discriminate].
    intros _. eapply loops_ok_rows_fit; eauto.
  - intros Hfit. now rewrite (update_weights_closed_form _ _ _ _ _ _ Hfit).
Qed.
End update_weights_ends.

(** ** How a call of [train] can end *)

Section train_ends.
Import MachineLearning Closed.
Local Open Scope float_scope.
Variable self : Data.t.
Variables (data_number epochs : Z).
Variables (learning_decay error_tolerance regularization : float).
Variables (lasso ridge : bool).

(** An epoch that ends normally has passed the decay computation. *)
Lemma train_epoch_rate epoch learning_rate (layer layer' : Layer) rate' prediction target :
  train_epoch self data_number epochs learning_decay regularization lasso ridge
    epoch learning_rate layer = (Ok (rate', prediction, target), layer') ->
  _calculate_learning_decay epoch epochs learning_rate learning_decay = Ok rate'.
Proof.
  intros Hrun. unfold train_epoch in Hrun.
  apply Py_bind_inv in Hrun as (x & s0 & _ & Hrun).
  apply Py_bind_inv in Hrun as ([] & s1 & _ & Hrun).
  apply Py_bind_inv in Hrun as (l1 & s2 & _ & Hrun).
  apply Py_bind_inv in Hrun as (outputs & s3 & _ & Hrun).
  apply Py_bind_inv in Hrun as (t & s4 & _ & Hrun).
  apply Py_bind_inv in Hrun as ([] & s5 & _ & Hrun).
  apply Py_bind_inv in Hrun as ([] & s6 & _ & Hrun).
  apply Py_bind_inv in Hrun as (r & s7 & Hdecay & Hrun).
  apply lift_inv in Hdecay as [Hdecay _].
  injection Hrun as -> _ _ _. exact Hdecay.
Qed.

(** X9: with one, two or three epochs [train] never returns: its first
    epoch ends in an exception (at the latest the ZeroDivisionError of the
    decay computation, after the weights were updated), so the caller gets
    neither a pair nor None. *)
Theorem train_faults_below_four_epochs learning_rate (layer : Layer) :
  (1 <= epochs < 4)%Z ->
  exists e layer',
    train self data_number epochs learning_decay error_tolerance regularization
      lasso ridge learning_rate layer = (Raise e, layer').
Proof.
  intros Hep. unfold train, py_range.
  replace (Z.to_nat epochs) with (Datatypes.S (Z.to_nat epochs - 1)) by lia.
  cbn [seq fmap list_fmap train_loop]. unfold mbind at 1, Py_bind at 1.
  destruct (train_epoch _ _ _ _ _ _ _ _ learning_rate layer)
    as [[[[rate' p] t] | e] layer'] eqn:Hepoch; [exfalso | eauto].
  apply train_epoch_rate in Hepoch.
  unfold _calculate_learning_decay, py_mod in Hepoch.
  rewrite Z.div_small in Hepoch by lia. discriminate.
Qed.

(** X10: with no epoch to run (epochs <= 0) [train] returns None at once:
    it reads neither the dataset nor the layer, and the layer is as it
    was, also when the data number is out of range. *)
Theorem train_without_epochs learning_rate (layer : Layer) :
  (epochs <= 0)%Z ->
  train self data_number epochs learning_decay error_tolerance regularization
    lasso ridge learning_rate layer = (Ok None, layer).
Proof.
  intros Hep. unfold train, py_range.
  replace (Z.to_nat epochs) with 0%nat by lia. reflexivity.
Qed.

(** X11: when the current sample cannot be fetched, a call of [train] with
    at least one epoch raises the exception of [get_data_sample] and
    leaves the layer as it was. *)
Theorem train_without_sample learning_rate (layer : Layer) (e : exn) :
  (1 <= epochs)%Z ->
  Data.get_data_sample self = Raise e ->
  train self data_number epochs learning_decay error_tolerance regularization
    lasso ridge learning_rate layer = (Raise e, layer).
Proof.
  intros Hep Hbad. unfold train, py_range.
  replace (Z.to_nat epochs) with (Datatypes.S (Z.to_nat epochs - 1)) by lia.
  cbn [seq fmap list_fmap train_loop]. unfold mbind at 1, Py_bind at 1.
  unfold train_epoch. unfold mbind at 1, Py_bind at 1, lift at 1.
  now rewrite Hbad.
Qed.

(** What an epoch keeps of the layer. *)
Let keeps (layer layer' : Layer) : Prop :=
  length <$> weights layer' = length <$> weights layer /\
  forward layer' = forward layer.

Lemma train_epoch_shape epoch learning_rate (layer : Layer) :
  keeps layer
    (train_epoch self data_number epochs learning_decay regularization lasso ridge
       epoch learning_rate layer).2.
Proof.
  unfold train_epoch. unfold mbind at 1, Py_bind at 1, lift at 1.
  destruct (Data.get_data_sample self) as [x | e]; [| split; reflexivity].
  unfold mbind at 1, Py_bind at 1, set_input_dataset at 1.
  unfold mbind at 1, Py_bind at 1, get at 1.
  set (layer1 := with_input_dataset x layer).
  unfold mbind at 1, Py_bind at 1, lift at 1.
  destruct (get_layer_dataset layer1) as [outputs | e]; [| split; reflexivity].
  unfold mbind at 1, Py_bind at 1, lift at 1.
  destruct (Data.get_normalized_target_value self data_number) as [target | e];
    [| split; reflexivity].
  unfold mbind at 1, Py_bind at 1.
  pose proof (update_weights_frame (py_sum outputs - target) lasso ridge learning_rate
                regularization layer1 layer1 (same_frame_refl layer1)) as (Hs & _ & Hf).
  destruct (update_weights _ _ _ _ _ layer1) as [[[] | e] layer2];
    [| split; [exact Hs | exact Hf]].
  unfold mbind at 1, Py_bind at 1.
  pose proof (get_train_visualisation_state epoch (py_sum outputs) target layer2) as Hvis.
  destruct (__get_train_visualisation epoch (py_sum outputs) target layer2)
    as [[[] | e] layer3]; simpl in Hvis; subst layer3;
    [| split; [exact Hs | exact Hf]].
  unfold mbind, Py_bind, lift, mret, Py_ret.
  destruct (_calculate_learning_decay epoch epochs learning_rate learning_decay);
    (split; [exact Hs | exact Hf]).
Qed.

Lemma train_loop_shape (remaining : list Z) learning_rate (layer : Layer) :
  keeps layer
    (train_loop self data_number epochs learning_decay error_tolerance regularization
       lasso ridge remaining learning_rate layer).2.
Proof.
  revert learning_rate layer.
  induction remaining as [| epoch remaining IH]; intros lr layer; [split; reflexivity |].
  cbn [train_loop]. unfold mbind at 1, Py_bind at 1.
  pose proof (train_epoch_shape epoch lr layer) as Hep.
  destruct (train_epoch _ _ _ _ _ _ _ epoch lr layer) as [[[[lr' p] t] | e] layer1];
    [| exact Hep].
  cbn [snd] in Hep. destruct Hep as [Hs Hf].
  destruct (abs (p - t) <? error_tolerance).
  - unfold mbind, Py_bind, get, mret, Py_ret. cbn [snd]. split; assumption.
  - destruct (IH lr' layer1) as [Hs' Hf']. split; congruence.
Qed.

(** X12: however a call of [train] ends (a pair, None or an exception),
    the layer's matrix has the rows it had, each of the length it had, and
    the layer computes its outputs by the same method: training changes
    entries, the bias and the input vector only. *)
Theorem train_preserves_shape learning_rate (layer : Layer) :
  let layer' :=
    (train self data_number epochs learning_decay error_tolerance regularization
       lasso ridge learning_rate layer).2 in
  length (weights layer') = length (weights layer) /\
  length <$> weights layer' = length <$> weights layer /\
  forward layer' = forward layer.
Proof.
  cbv zeta. unfold train.
  destruct (train_loop_shape (py_range epochs) learning_rate layer) as [Hs Hf].
  repeat split; try assumption.
  apply (f_equal length) in Hs. now rewrite !length_fmap in Hs.
Qed.
End train_ends.

Section train_ends_witnesses.
Import MachineLearning Scenario.
Local Open Scope float_scope.

Lemma train_faults_below_four_epochs_witness :
  (1 <= 3 < 4)%Z /\
  exists e layer', train cube 1 3 0.9 0.5 0 false true 0.1 single = (Raise e, layer').
Proof.
  assert (H : (1 <= 3 < 4)%Z) by lia.
  split; [exact H |].
  exact (train_faults_below_four_epochs cube 1 3 0.9 0.5 0 false true 0.1 single H).
Defined.

Lemma train_without_epochs_witness :
  (0 <= 0)%Z /\
  train cube 7 0 0.9 0.5 0 false true 0.1 single = (Ok None, single).
Proof.
  assert (H : (0 <= 0)%Z) by lia.
  split; [exact H |].
  exact (train_without_epochs cube 7 0 0.9 0.5 0 false true 0.1 single H).
Defined.

Lemma train_without_sample_witness :
  let self := Data.mk "cube" 1 3 (Data.dataset cube) in
  (1 <= 8)%Z /\
  Data.get_data_sample self = Raise ValueError /\
  train self 1 8 0.9 0.5 0 false true 0.1 single = (Raise ValueError, single).
Proof.
  intros self.
  assert (H : (1 <= 8)%Z) by lia.
  split; [exact H |]. split; [reflexivity |].
  exact (train_without_sample self 1 8 0.9 0.5 0 false true 0.1 single ValueError
           H eq_refl).
Defined.
End train_ends_witnesses.

(** ** The input stored in the layer does not reach [train] *)

Section train_inputs.
Import MachineLearning.
Local Open Scope float_scope.
Variable self : Data.t.
Variables (data_number epochs : Z).
Variables (learning_decay error_tolerance regularization : float).
Variables (lasso ridge : bool).

(** X13: when the current sample can be fetched and there is at least one
    epoch, two layers that differ only in their [input_dataset] give the
    same result and are left in the same state by [train]: the input vector
    a caller stores in the layer before the call is never read. *)
Theorem train_same_for_any_stored_input learning_rate (layer1 layer2 : Layer) x :
  (1 <= epochs)%Z ->
  Data.get_data_sample self = Ok x ->
  weights layer1 = weights layer2 ->
  bias layer1 = bias layer2 ->
  forward layer1 = forward layer2 ->
  train self data_number epochs learning_decay error_tolerance regularization
    lasso ridge learning_rate layer1
  = train self data_number epochs learning_decay error_tolerance regularization
      lasso ridge learning_rate layer2.
Proof.
  intros Hep Hx Hw Hb Hf.
  assert (H1 : layer1 = with_input_dataset (input_dataset layer1) layer2).
  { destruct layer1, layer2. cbn in *. now subst. }
  rewrite H1.
  exact (train_ignores_stored_input self data_number epochs learning_decay
           error_tolerance regularization lasso ridge x Hx learning_rate layer2
           (input_dataset layer1) Hep).
Qed.
End train_inputs.

Section train_inputs_witness.
Import MachineLearning Scenario.
Local Open Scope float_scope.

Lemma train_same_for_any_stored_input_witness :
  (1 <= 8)%Z /\
  Data.get_data_sample cube = Ok [1; 2] /\
  train cube 1 8 0.9 0.5 0 false true 0.1 (with_input_dataset [7; 7; 7] single)
  = train cube 1 8 0.9 0.5 0 false true 0.1 single.
Proof.
  assert (H : (1 <= 8)%Z) by lia.
  split; [exact H |]. split; [reflexivity |].
  exact (train_same_for_any_stored_input cube 1 8 0.9 0.5 0 false true 0.1
           (with_input_dataset [7; 7; 7] single) single [1; 2]
           H eq_refl eq_refl eq_refl eq_refl).
Defined.
End train_inputs_witness.

(** ** The decay schedule over a run *)


Section decay_schedule.
Import MachineLearning Closed.
Local Open Scope float_scope.
Variable self : Data.t.
Variables (data_number epochs : Z).
Variables (learning_decay error_tolerance regularization : float).
Variables (lasso ridge : bool).
Hypothesis enough_epochs : (4 <= epochs)%Z.




End decay_schedule.

Section decay_schedule_witness.
Import MachineLearning Closed Scenario.
Local Open Scope float_scope.

End decay_schedule_witness.

(** ** When the decay computation faults *)

Section decay_faults.
Import MachineLearning.
Local Open Scope float_scope.

(** X15: [_calculate_learning_decay] raises (ZeroDivisionError) exactly
    when 0 <= epochs <= 3; for every other number of epochs, negative ones
    included, it returns the rate or the rate times the decay factor. *)
Theorem learning_decay_faults_iff
    (epoch epochs : Z) (learning_rate learning_decay : float) :
  ((exists e,
       _calculate_learning_decay epoch epochs learning_rate learning_decay = Raise e)
   <-> (0 <= epochs < 4)%Z) /\
  (~ (0 <= epochs < 4)%Z ->
   _calculate_learning_decay epoch epochs learning_rate learning_decay
   = Ok learning_rate \/
   _calculate_learning_decay epoch epochs learning_rate learning_decay
   = Ok (learning_rate * learning_decay)).
Proof.
  unfold _calculate_learning_decay, py_mod.
  destruct (Z.eqb_spec (epochs / 4) 0) as [Hq | Hq]; cbn [mbind res_bind].
  - apply quarter_zero in Hq. split; [| tauto].
    split; [tauto | intros _; eauto].
  - rewrite quarter_zero in Hq. split.
    + split; [intros [e He]; discriminate | tauto].
    + intros _. destruct (_ && _); auto.
Qed.
End decay_faults.

(** ** [train_layers_on_dataset] on an empty category, and what it saves *)

Section dataset_edges.
Import MachineLearning.
Local Open Scope float_scope.
Variable self : Data.t.
Variable epochs : Z.
Variables (learning_rate learning_decay error_tolerance regularization : float).
Variables (lasso ridge : bool).

(** X16: when the active category has no entry, [train_layers_on_dataset]
    trains nothing: it fetches no sample, leaves the three layers as they
    were and saves their weights and biases under the three names. *)
Theorem train_layers_on_empty_category (c : Data.category) (data_number : Z) (n : Net) :
  Data.active_category self = Ok c ->
  Data.category_iter c = [] ->
  train_layers_on_dataset self epochs learning_rate learning_decay error_tolerance
    regularization lasso ridge data_number n
  = (Ok (mkPersisted
           {[ "hidden_layer_first" := weights (hidden_layer_first n);
              "hidden_layer_second" := weights (hidden_layer_second n);
              "output_outer_layer" := weights (output_outer_layer n) ]}
           {[ "hidden_layer_first" := bias (hidden_layer_first n);
              "hidden_layer_second" := bias (hidden_layer_second n);
              "output_outer_layer" := bias (output_outer_layer n) ]}),
     n).
Proof.
  intros Hc Hempty.
  destruct (train_layers_on_dataset self epochs learning_rate learning_decay
              error_tolerance regularization lasso ridge data_number n)
    as [r n'] eqn:Hrun.
  assert (Hok : exists saved, r = Ok saved /\ n' = n).
  { unfold train_layers_on_dataset in Hrun.
    unfold mbind at 1, Py_bind at 1, lift at 1 in Hrun. rewrite Hc in Hrun.
    unfold Data.category_len in Hrun. rewrite Hempty in Hrun.
    cbn in Hrun. injection Hrun as <- <-. eauto. }
  destruct Hok as (saved & -> & ->).
  destruct (train_layers_on_dataset_saved _ _ _ _ _ _ _ _ _ _ _ _ Hrun)
    as (Hw & Hb & _).
  destruct saved as [sw sb]. cbn in Hw, Hb. now subst.
Qed.

(** X17: what a call of [train_layers_on_dataset] that returns has
    saved: mappings with exactly the three names hidden_layer_first,
    hidden_layer_second and output_outer_layer, each name holding the
    weights, respectively the bias, of its layer as the call leaves it. *)
Theorem train_layers_on_dataset_saves_three_names (data_number : Z) (n n' : Net) saved :
  train_layers_on_dataset self epochs learning_rate learning_decay error_tolerance
    regularization lasso ridge data_number n = (Ok saved, n') ->
  let names : gset string :=
    {[ "hidden_layer_first"; "hidden_layer_second"; "output_outer_layer" ]} in
  let layer_of (name : string) : Layer :=
    if decide (name = "hidden_layer_first") then hidden_layer_first n'
    else if decide (name = "hidden_layer_second") then hidden_layer_second n'
    else output_outer_layer n' in
  dom (p_weights saved) = names /\
  dom (p_biases saved) = names /\
  (forall name, name ∈ names ->
                p_weights saved !! name = Some (weights (layer_of name))) /\
  (forall name, name ∈ names ->
                p_biases saved !! name = Some (bias (layer_of name))).
Proof.
  intros Hrun names layer_of.
  destruct (train_layers_on_dataset_saved _ _ _ _ _ _ _ _ _ _ _ _ Hrun)
    as (Hw & Hb & _).
  rewrite Hw, Hb. unfold names, layer_of.
  split; [| split; [| split]].
  - rewrite !dom_insert_L, dom_singleton_L. set_solver.
  - rewrite !dom_insert_L, dom_singleton_L. set_solver.
  - intros name Hin.
    apply elem_of_union in Hin as [Hin | Hin];
      [apply elem_of_union in Hin as [Hin | Hin] |];
      apply elem_of_singleton in Hin; subst name; reflexivity.
  - intros name Hin.
    apply elem_of_union in Hin as [Hin | Hin];
      [apply elem_of_union in Hin as [Hin | Hin] |];
      apply elem_of_singleton in Hin; subst name; reflexivity.
Qed.

(** X18: when the current sample cannot be fetched and the active category
    has at least one entry, [train_layers_on_dataset] raises the exception
    of [get_data_sample] in its first pass: the layers are as they were and
    nothing is saved. *)
Theorem train_layers_on_dataset_without_sample
    (c : Data.category) (e : exn) (data_number : Z) (n : Net) :
  Data.active_category self = Ok c ->
  Data.category_iter c <> [] ->
  Data.get_data_sample self = Raise e ->
  train_layers_on_dataset self epochs learning_rate learning_decay error_tolerance
    regularization lasso ridge data_number n = (Raise e, n).
Proof.
  intros Hc Hne Hbad. unfold train_layers_on_dataset.
  unfold mbind at 1, Py_bind at 1, lift at 1. rewrite Hc.
  unfold Data.category_len, py_range. rewrite Nat2Z.id.
  destruct (Data.category_iter c) as [| key keys]; [congruence |].
  cbn [length seq fmap list_fmap dataset_loop].
  unfold mbind at 1, Py_bind at 1. unfold mbind at 1, Py_bind at 1.
  unfold dataset_step. unfold mbind at 1, Py_bind at 1, lift at 1.
  now rewrite Hbad.
Qed.

Lemma dataset_loop_inputs {I} (indices : list I) (data_number data_number' : Z) (n n' : Net) :
  indices <> [] -> (1 <= epochs)%Z ->
  dataset_loop self epochs learning_rate learning_decay error_tolerance regularization
    lasso ridge indices data_number n = (Ok data_number', n') ->
  exists x, Data.get_data_sample self = Ok x /\
            input_dataset (hidden_layer_first n') = x /\
            input_dataset (hidden_layer_second n') = x /\
            input_dataset (output_outer_layer n') = x.
Proof.
  intros Hne Hep. revert data_number n.
  induction indices as [| i indices IH]; intros d n0 Hrun; [congruence |].
  cbn [dataset_loop] in Hrun.
  apply Py_bind_inv in Hrun as (d1 & n1 & Hstep & Hrun).
  destruct indices as [| i' indices].
  - cbn [dataset_loop] in Hrun. injection Hrun as _ <-.
    apply dataset_step_ok in Hstep as [_ Hstep].
    now destruct (Hstep Hep) as (Hx & _).
  - apply (IH ltac:(discriminate) d1 n1 Hrun).
Qed.

(** X19: after a call of [train_layers_on_dataset] that returns, with at
    least one epoch and at least one entry in the active category, the
    input vector of each of the three layers is the raw sample numbered
    [self.data_number]: the second hidden layer and the output layer do
    not hold the output of the layer before them. *)
Theorem train_layers_on_dataset_leaves_raw_sample
    (c : Data.category) (data_number : Z) (n n' : Net) saved :
  (1 <= epochs)%Z ->
  Data.active_category self = Ok c ->
  Data.category_iter c <> [] ->
  train_layers_on_dataset self epochs learning_rate learning_decay error_tolerance
    regularization lasso ridge data_number n = (Ok saved, n') ->
  exists x, Data.get_data_sample self = Ok x /\
            input_dataset (hidden_layer_first n') = x /\
            input_dataset (hidden_layer_second n') = x /\
            input_dataset (output_outer_layer n') = x.
Proof.
  intros Hep Hc Hne Hrun.
  destruct (train_layers_on_dataset_saved _ _ _ _ _ _ _ _ _ _ _ _ Hrun)
    as (_ & _ & c' & last & Hc' & Hloop & _).
  rewrite Hc in Hc'. injection Hc' as <-.
  apply (dataset_loop_inputs _ _ _ _ _) in Hloop; [exact Hloop | | exact Hep].
  unfold py_range, Data.category_len. rewrite Nat2Z.id.
  destruct (Data.category_iter c); [congruence | discriminate].
Qed.
End dataset_edges.

Section dataset_edges_witnesses.
Import MachineLearning Scenario.
Local Open Scope float_scope.

Lemma train_layers_on_empty_category_witness :
  let self := Data.mk "cube" 1 1 {["cube" := Data.CatDict []]} in
  Data.active_category self = Ok (Data.CatDict []) /\
  Data.category_iter (Data.CatDict []) = [] /\
  (train_layers_on_dataset self 4 0.5 0.9 1000 0 false true 1 net).2 = net.
Proof.
  intros self. split; [reflexivity |]. split; [reflexivity |].
  now rewrite (train_layers_on_empty_category self 4 0.5 0.9 1000 0 false true
                 (Data.CatDict []) 1 net eq_refl eq_refl).
Defined.

Lemma train_layers_on_dataset_saves_witness :
  exists saved n',
    train_layers_on_dataset cube 4 0.5 0.9 1000 0 false true 1 net = (Ok saved, n') /\
    p_weights saved !! "hidden_layer_second" = Some (weights (hidden_layer_second n')) /\
    p_biases saved !! "output_outer_layer" = Some (bias (output_outer_layer n')).
Proof.
  destruct (train_layers_on_dataset cube 4 0.5 0.9 1000 0 false true 1 net)
    as [[saved | e] n'] eqn:Hrun; [| vm_compute in Hrun; discriminate].
  exists saved, n'. split; [reflexivity |].
  destruct (train_layers_on_dataset_saves_three_names
              cube 4 0.5 0.9 1000 0 false true 1 net n' saved Hrun)
    as (_ & _ & Hw & Hb).
  split.
  - exact (Hw "hidden_layer_second" ltac:(set_solver)).
  - exact (Hb "output_outer_layer" ltac:(set_solver)).
Defined.
End dataset_edges_witnesses.

Section dataset_faults_witnesses.
Import MachineLearning Scenario.
Local Open Scope float_scope.

Lemma train_layers_on_dataset_without_sample_witness :
  let self := Data.mk "cube" 1 3 (Data.dataset cube) in
  let c := Data.CatDict [("1", [[1; 2]; [0.5; 0.5]])] in
  Data.active_category self = Ok c /\
  Data.category_iter c <> [] /\
  Data.get_data_sample self = Raise ValueError /\
  train_layers_on_dataset self 4 0.5 0.9 1000 0 false true 1 net
  = (Raise ValueError, net).
Proof.
  intros self c.
  assert (Hne : Data.category_iter c <> []) by discriminate.
  split; [reflexivity |]. split; [exact Hne |]. split; [reflexivity |].
  exact (train_layers_on_dataset_without_sample self 4 0.5 0.9 1000 0 false true
           c ValueError 1 net eq_refl Hne eq_refl).
Defined.

Lemma train_layers_on_dataset_leaves_raw_sample_witness :
  let c := Data.CatDict [("1", [[1; 2]; [0.5; 0.5]])] in
  (1 <= 4)%Z /\
  Data.active_category cube = Ok c /\
  Data.category_iter c <> [] /\
  exists saved n',
    train_layers_on_dataset cube 4 0.5 0.9 1000 0 false true 1 net = (Ok saved, n') /\
    input_dataset (hidden_layer_second n') = [1; 2].
Proof.
  intros c.
  assert (Hep : (1 <= 4)%Z) by lia.
  assert (Hne : Data.category_iter c <> []) by discriminate.
  split; [exact Hep |]. split; [reflexivity |]. split; [exact Hne |].
  destruct (train_layers_on_dataset cube 4 0.5 0.9 1000 0 false true 1 net)
    as [[saved | e] n'] eqn:Hrun; [| vm_compute in Hrun; discriminate].
  exists saved, n'. split; [reflexivity |].
  destruct (train_layers_on_dataset_leaves_raw_sample
              cube 4 0.5 0.9 1000 0 false true c 1 net n' saved Hep eq_refl Hne Hrun)
    as (x & Hx & _ & H2 & _).
  rewrite H2. vm_compute in Hx. now injection Hx as <-.
Defined.
End dataset_faults_witnesses.

(** ** Entries under Lasso, Ridge or both *)

Section elastic_net.
Import MachineLearning Closed.
Local Open Scope float_scope.
Variables (gradient learning_rate regularization : float).
Variable layer : Layer.
Hypothesis rows_fit :
  Forall (fun row => length row <= length (input_dataset layer)) (weights layer).

(** X20: with at least one of the two flags set and no row longer than the
    input vector, one call of [update_weights] replaces entry (i,j), of
    value w, by [w - learning_rate * (gradient + term) * input_dataset[j]],
    where the term is computed from w as it was before the call: 0.0 plus
    the signed parameter (+r for w > 0, -r otherwise) under Lasso, plus
    r * w under Ridge; an entry is taken once, with the input value of its
    own column. *)
Theorem update_weights_elastic_net_entry (lasso ridge : bool) (i j : nat) row w x :
  lasso || ridge = true ->
  weights layer !! i = Some row -> row !! j = Some w ->
  input_dataset layer !! j = Some x ->
  let signed := if 0 <? w then regularization else - regularization in
  let term :=
    match lasso, ridge with
    | true, false => 0 + signed
    | false, true => 0 + regularization * w
    | _, _ => 0 + signed + regularization * w
    end in
  exists row',
    weights (update_weights gradient lasso ridge learning_rate regularization layer).2 !! i
    = Some row' /\
    row' !! j = Some (w - learning_rate * (gradient + term) * x).
Proof.
  intros Hflag Hrow Hw Hx signed term.
  destruct (update_weights_entry gradient lasso ridge learning_rate regularization
              layer rows_fit i j row w x Hrow Hw Hx) as (row' & H1 & H2).
  exists row'. split; [exact H1 |]. rewrite H2. f_equal.
  unfold entry_after, step, regularization_term, term, signed.
  destruct lasso, ridge; try discriminate; cbn [negb andb];
    destruct (0 <? w); now rewrite ?float_mul_1_r, ?float_mul_m1_r.
Qed.
End elastic_net.

Section elastic_net_witness.
Import MachineLearning Closed Scenario.
Local Open Scope float_scope.

Lemma update_weights_elastic_net_entry_witness :
  let layer := with_input_dataset [1; 2] (linear_layer [[1; -2]]) in
  Forall (fun row => length row <= length (input_dataset layer)) (weights layer) /\
  true || true = true /\
  weights layer !! 0%nat = Some [1; -2] /\
  [1; -2] !! 1%nat = Some (-2) /\
  input_dataset layer !! 1%nat = Some 2 /\
  exists row',
    weights (update_weights 0.5 true true 0.5 0.25 layer).2 !! 0%nat = Some row' /\
    row' !! 1%nat = Some (-2 - 0.5 * (0.5 + (0 + - 0.25 + 0.25 * -2)) * 2).
Proof.
  intros layer.
  assert (Hfit : Forall (fun row => length row <= length (input_dataset layer))
                        (weights layer)).
  { repeat constructor. }
  split; [exact Hfit |].
  split; [reflexivity |]. split; [reflexivity |]. split; [reflexivity |].
  split; [reflexivity |].
  exact (update_weights_elastic_net_entry 0.5 0.5 0.25 layer Hfit true true
           0%nat 1%nat [1; -2] (-2) 2 eq_refl eq_refl eq_refl eq_refl).
Defined.
End elastic_net_witness.

(** ** A data name the dataset does not have *)

Section missing_name.
Import Data.
Local Open Scope float_scope.

(** X21: when the dataset has no entry for [data_name], each of the four
    readers of data.py raises KeyError, whatever number or key it is
    asked for. *)
Theorem readers_raise_KeyError (self : Data.t) (k : Z) (key : string) :
  dataset self !! data_name self = None ->
  get_data_dict self = Raise KeyError /\
  get_data_sample self = Raise KeyError /\
  get_normalized_target_value self k = Raise KeyError /\
  get_target_value_by_key self key = Raise KeyError.
Proof.
  intros Hnone.
  unfold get_data_sample, get_normalized_target_value, get_target_value_by_key,
    get_data_dict, active_category.
  rewrite Hnone. repeat split.
Qed.

Lemma readers_raise_KeyError_witness :
  let self := Data.mk "digits" 1 1 (dataset Scenario.cube) in
  dataset self !! data_name self = None /\
  get_data_sample self = Raise KeyError /\
  get_target_value_by_key self "1" = Raise KeyError.
Proof.
  intros self. split; [reflexivity |].
  destruct (readers_raise_KeyError self 1 "1" eq_refl) as (_ & H2 & _ & H4).
  split; [exact H2 | exact H4].
Defined.
End missing_name.

(** ** The error of an exact prediction *)

Section exact_prediction.
Import MachineLearning.
Local Open Scope float_scope.

Lemma Prim2SF_infinity : Prim2SF infinity = S754_infinity false.
Proof. reflexivity. Qed.

Lemma Prim2SF_hundred : exists m e, Prim2SF 100 = S754_finite false m e.
Proof. eexists _, _. reflexivity. Qed.

(** A finite float that is not zero has a sign, a mantissa and an
    exponent. *)
Lemma finite_nonzero_spec (t : float) :
  is_finite t = true -> (t =? 0) = false ->
  exists s m e, Prim2SF t = S754_finite s m e.
Proof.
  unfold is_finite, is_nan, is_infinity.
  rewrite !FloatAxioms.eqb_spec, abs_spec, Prim2SF_infinity, Prim2SF_zero.
  destruct (Prim2SF t) as [s | [] | | s m e]; cbn; try discriminate; eauto.
Qed.

(** X22: when the target is a finite float other than zero and the
    prediction is that same float, [_calculate_error] returns zero (it
    compares equal to 0.0). *)
Theorem calculate_error_of_exact_prediction (target : float) :
  is_finite target = true -> (target =? 0) = false ->
  exists z, _calculate_error target target = Ok z /\ (z =? 0) = true.
Proof.
  intros Hfin Hnz.
  destruct (finite_nonzero_spec target Hfin Hnz) as (s & m & e & Ht).
  unfold _calculate_error, py_div. rewrite Hnz. cbn [mbind res_bind].
  eexists. split; [reflexivity |].
  destruct Prim2SF_hundred as (mh & eh & Hh).
  rewrite FloatAxioms.eqb_spec, mul_spec, div_spec, sub_spec, Ht, Hh, Prim2SF_zero.
  cbn [SF64sub SFsub]. rewrite Z.sub_diag.
  cbn [binary_normalize SF64div SFdiv SF64mul SFmul].
  now destruct s.
Qed.

Lemma calculate_error_of_exact_prediction_witness :
  is_finite 0.3 = true /\ (0.3 =? 0) = false /\
  exists z, _calculate_error 0.3 0.3 = Ok z /\ (z =? 0) = true.
Proof.
  split; [reflexivity |]. split; [reflexivity |].
  exact (calculate_error_of_exact_prediction 0.3 eq_refl eq_refl).
Defined.
End exact_prediction.

(** ** Data numbers a run needs *)

Section needed_targets.
Import MachineLearning.
Local Open Scope float_scope.
Variable self : Data.t.
Variable epochs : Z.
Variables (learning_rate learning_decay error_tolerance regularization : float).
Variables (lasso ridge : bool).

(** X23: when the sample can be fetched and the layer computes its
    outputs, but the data number has no target, a call of [train] with at
    least one epoch raises the exception of [get_normalized_target_value]:
    weights and bias are untouched, but the layer's input vector has
    already been replaced by the sample. *)
Theorem train_without_target
    (data_number : Z) (layer : Layer) x outputs (e : exn) :
  (1 <= epochs)%Z ->
  Data.get_data_sample self = Ok x ->
  get_layer_dataset (with_input_dataset x layer) = Ok outputs ->
  Data.get_normalized_target_value self data_number = Raise e ->
  train self data_number epochs learning_decay error_tolerance regularization
    lasso ridge learning_rate layer
  = (Raise e, with_input_dataset x layer).
Proof.
  intros Hep Hx Hout Hbad. unfold train, py_range.
  replace (Z.to_nat epochs) with (Datatypes.S (Z.to_nat epochs - 1)) by lia.
  cbn [seq fmap list_fmap train_loop]. unfold mbind at 1, Py_bind at 1.
  unfold train_epoch. unfold mbind at 1, Py_bind at 1, lift at 1. rewrite Hx.
  unfold mbind at 1, Py_bind at 1, set_input_dataset at 1.
  unfold mbind at 1, Py_bind at 1, get at 1.
  unfold mbind at 1, Py_bind at 1, lift at 1. rewrite Hout.
  unfold mbind at 1, Py_bind at 1, lift at 1. now rewrite Hbad.
Qed.

(** A call of [train] that returns has found the target of its data
    number. *)
Lemma train_ok_target (data_number : Z) (layer layer' : Layer) r :
  (1 <= epochs)%Z ->
  train self data_number epochs learning_decay error_tolerance regularization
    lasso ridge learning_rate layer = (Ok r, layer') ->
  exists t, Data.get_normalized_target_value self data_number = Ok t.
Proof.
  intros Hep Hrun. unfold train, py_range in Hrun.
  replace (Z.to_nat epochs) with (Datatypes.S (Z.to_nat epochs - 1)) in Hrun by lia.
  cbn [seq fmap list_fmap train_loop] in Hrun.
  apply Py_bind_inv in Hrun as ([[rate' p] t] & s0 & Hepoch & _).
  unfold train_epoch in Hepoch.
  apply Py_bind_inv in Hepoch as (x & s1 & _ & Hepoch).
  apply Py_bind_inv in Hepoch as ([] & s2 & _ & Hepoch).
  apply Py_bind_inv in Hepoch as (l1 & s3 & _ & Hepoch).
  apply Py_bind_inv in Hepoch as (outputs & s4 & _ & Hepoch).
  apply Py_bind_inv in Hepoch as (t' & s5 & Ht & _).
  apply lift_inv in Ht as [Ht _]. eauto.
Qed.

Lemma dataset_loop_targets {I} (indices : list I) (data_number data_number' : Z) (n n' : Net) :
  (1 <= epochs)%Z ->
  dataset_loop self epochs learning_rate learning_decay error_tolerance regularization
    lasso ridge indices data_number n = (Ok data_number', n') ->
  forall k : nat, k < length indices ->
    exists t, Data.get_normalized_target_value self (data_number + Z.of_nat k) = Ok t.
Proof.
  intros Hep. revert data_number n.
  induction indices as [| i indices IH]; intros d n0 Hrun k Hk; [cbn in Hk; lia |].
  cbn [dataset_loop] in Hrun.
  apply Py_bind_inv in Hrun as (d1 & n1 & Hstep & Hrun).
  destruct k as [| k].
  - rewrite Z.add_0_r. unfold dataset_step in Hstep.
    apply Py_bind_inv in Hstep as (x & s0 & _ & Hstep).
    apply Py_bind_inv in Hstep as ([] & s1 & _ & Hstep).
    apply Py_bind_inv in Hstep as (r1 & s2 & Htrain & _).
    apply on_first_inv in Htrain as (l & Htrain & _).
    unfold train_layer in Htrain. eapply train_ok_target; eauto.
  - apply dataset_step_ok in Hstep as [-> _].
    cbn [length] in Hk.
    destruct (IH _ _ Hrun k ltac:(lia)) as [t Ht].
    exists t. rewrite <- Ht. f_equal. lia.
Qed.

(** The data numbers that have a target. *)
Lemma get_normalized_target_value_ok_bounds
    (classes : list (string * list Data.sample)) (k : Z) t :
  Data.dataset self !! Data.data_name self = Some (Data.CatDict classes) ->
  Data.get_normalized_target_value self k = Ok t ->
  let n := Z.of_nat (length (default [] (dict_get (py_str (Data.data_class_name self))
                                                  classes))) in
  (- n < k <= n)%Z.
Proof.
  intros Hdict Hok n.
  destruct (Z.le_gt_cases k (- n)) as [Hlow | Hlow];
    [| destruct (Z.lt_ge_cases n k) as [Hhigh | Hhigh]; [| lia]]; exfalso.
  - unfold Data.get_normalized_target_value in Hok.
    rewrite (get_data_dict_enumerates self classes Hdict) in Hok.
    cbn [mbind res_bind] in Hok. unfold enumerate1 in Hok.
    rewrite (imap_ext _ (fun i y => (Z.of_nat (S (0 + i)), y))) in Hok by reflexivity.
    rewrite enumerate1_keys_from in Hok.
    unfold py_index, py_pos in Hok. rewrite length_fmap, length_seq in Hok. fold n in Hok.
    destruct (Z.leb_spec 0 (k - 1)); [lia |].
    destruct (Z.leb_spec (- n) (k - 1)); [lia | discriminate].
  - unfold Data.get_normalized_target_value in Hok.
    rewrite (get_data_dict_enumerates self classes Hdict) in Hok.
    cbn [mbind res_bind] in Hok. unfold enumerate1 in Hok.
    rewrite (imap_ext _ (fun i y => (Z.of_nat (S (0 + i)), y))) in Hok by reflexivity.
    rewrite enumerate1_keys_from in Hok.
    unfold py_index, py_pos in Hok. rewrite length_fmap, length_seq in Hok. fold n in Hok.
    destruct (Z.leb_spec 0 (k - 1)); [| lia].
    destruct (Z.ltb_spec (k - 1) n); [lia | discriminate].
Qed.

(** X24: [train_layers_on_dataset] counts its data number up once per
    entry of the active category but takes every target from the samples
    of the current class.  So a call with at least one epoch can only
    return if the last data number it reaches,
    data_number + (number of entries) - 1, is at most the number of
    samples of the current class (and the first is above minus that
    number); with more entries than samples left it raises instead. *)
Theorem train_layers_on_dataset_needs_targets
    (classes : list (string * list Data.sample)) (data_number : Z) (n n' : Net) saved :
  (1 <= epochs)%Z ->
  Data.dataset self !! Data.data_name self = Some (Data.CatDict classes) ->
  classes <> [] ->
  train_layers_on_dataset self epochs learning_rate learning_decay error_tolerance
    regularization lasso ridge data_number n = (Ok saved, n') ->
  let samples :=
    Z.of_nat (length (default [] (dict_get (py_str (Data.data_class_name self))
                                           classes))) in
  let entries := Z.of_nat (length classes) in
  (- samples < data_number)%Z /\ (data_number + entries - 1 <= samples)%Z.
Proof.
  intros Hep Hdict Hne Hrun samples entries.
  destruct (train_layers_on_dataset_saved _ _ _ _ _ _ _ _ _ _ _ _ Hrun)
    as (_ & _ & c & last & Hc & Hloop & _).
  unfold Data.active_category in Hc. rewrite Hdict in Hc. injection Hc as <-.
  pose proof (dataset_loop_targets _ _ _ _ _ Hep Hloop) as Htargets.
  unfold py_range, Data.category_len in Htargets.
  rewrite Nat2Z.id, length_fmap, length_seq in Htargets.
  cbn [Data.category_iter] in Htargets. rewrite length_fmap in Htargets.
  assert (Hpos : 0 < length classes) by (destruct classes; [congruence | cbn; lia]).
  destruct (Htargets 0%nat Hpos) as [t0 Ht0].
  destruct (Htargets (length classes - 1)%nat ltac:(lia)) as [t1 Ht1].
  apply (get_normalized_target_value_ok_bounds classes) in Ht0; [| exact Hdict].
  apply (get_normalized_target_value_ok_bounds classes) in Ht1; [| exact Hdict].
  cbv zeta in Ht0, Ht1. unfold samples, entries. lia.
Qed.
End needed_targets.

Section needed_targets_witnesses.
Import MachineLearning Scenario.
Local Open Scope float_scope.

Lemma train_without_target_witness :
  (1 <= 8)%Z /\
  Data.get_data_sample cube = Ok [1; 2] /\
  get_layer_dataset (with_input_dataset [1; 2] single) = Ok [1] /\
  Data.get_normalized_target_value cube 5 = Raise IndexError /\
  train cube 5 8 0.9 0.5 0 false true 0.1 single
  = (Raise IndexError, with_input_dataset [1; 2] single).
Proof.
  assert (Hep : (1 <= 8)%Z) by lia.
  split; [exact Hep |]. split; [reflexivity |]. split; [reflexivity |].
  split; [reflexivity |].
  exact (train_without_target cube 8 0.1 0.9 0.5 0 false true 5 single [1; 2] [1]
           IndexError Hep eq_refl eq_refl eq_refl).
Defined.

Lemma train_layers_on_dataset_needs_targets_witness :
  let classes := [("1", [[1; 2]; [0.5; 0.5]])] in
  (1 <= 4)%Z /\
  Data.dataset cube !! Data.data_name cube = Some (Data.CatDict classes) /\
  classes <> [] /\
  exists saved n',
    train_layers_on_dataset cube 4 0.5 0.9 1000 0 false true 1 net = (Ok saved, n') /\
    (- 2 < 1)%Z /\ (1 + 1 - 1 <= 2)%Z.
Proof.
  intros classes.
  assert (Hep : (1 <= 4)%Z) by lia.
  assert (Hne : classes <> []) by discriminate.
  split; [exact Hep |]. split; [reflexivity |]. split; [exact Hne |].
  destruct (train_layers_on_dataset cube 4 0.5 0.9 1000 0 false true 1 net)
    as [[saved | e] n'] eqn:Hrun; [| vm_compute in Hrun; discriminate].
  exists saved, n'. split; [reflexivity |].
  exact (train_layers_on_dataset_needs_targets
           cube 4 0.5 0.9 1000 0 false true classes 1 net n' saved Hep eq_refl Hne Hrun).
Defined.
End needed_targets_witnesses.
